(** * Discord auto-message bot (main.py): shallow embedding and properties

    The program loads a JSON configuration once, then forever picks a
    template, renders it, POSTs it to a channel and sleeps.  The embedding
    follows main.py function by function:

      - [load_config]     lines 43-67
      - [get_headers]     lines 70-75
      - [get_connection]  lines 77-78
      - [render_message]  lines 81-83
      - [send_message]    lines 86-105
      - [main]            lines 108-120 (its loop unrolled tick by tick)

    A Python [str] is a [string] whose characters are read as code points
    below 256; [bytes] are [list byte]; integers are [Z]; the value produced
    by [json.load] is the inductive type [json]. *)

From Stdlib Require Import ZArith List Bool Lia Ascii String.
From Stdlib Require Import Strings.Byte.
From Stdlib Require Import Floats.SpecFloat.
From Stdlib Require Import Numbers.DecimalString.
Import ListNotations.

Set Warnings "-register-all".

Open Scope string_scope.
Open Scope Z_scope.

(** ** Python string primitives *)

Module PyStr.

Definition code (c : ascii) : N := N_of_ascii c.

(** [str.isspace] on one code point below 256. *)
Definition is_space (c : ascii) : bool :=
  let n := code c in
  ((9 <=? n) && (n <=? 13) || (28 <=? n) && (n <=? 32)
   || (n =? 133) || (n =? 160))%N.

(** [str.lower] on one code point below 256: A-Z, and the Latin-1 capitals
    0xC0-0xDE except the multiplication sign 0xD7. *)
Definition lower_char (c : ascii) : ascii :=
  let n := code c in
  if ((65 <=? n) && (n <=? 90)
      || (192 <=? n) && (n <=? 222) && negb (n =? 215))%N
  then ascii_of_N (n + 32) else c.

Fixpoint lower (s : string) : string :=
  match s with
  | EmptyString => EmptyString
  | String c r => String (lower_char c) (lower r)
  end.

Section Strip.
Variable sp : ascii -> bool.

Fixpoint lstrip_by (s : string) : string :=
  match s with
  | EmptyString => EmptyString
  | String c r => if sp c then lstrip_by r else s
  end.

(** Drops the trailing run: a character is kept when something that is
    kept follows it, or when it is not in [sp] itself. *)
Fixpoint rstrip_by (s : string) : string :=
  match s with
  | EmptyString => EmptyString
  | String c r =>
      match rstrip_by r with
      | EmptyString => if sp c then EmptyString else String c EmptyString
      | String d t => String c (String d t)
      end
  end.

Definition strip_by (s : string) : string := rstrip_by (lstrip_by s).

End Strip.

(** [s.strip()] *)
Definition strip (s : string) : string := strip_by is_space s.

(** [s.startswith(p)] *)
Fixpoint startswith (p s : string) : bool :=
  match p, s with
  | EmptyString, _ => true
  | String _ _, EmptyString => false
  | String a p', String b s' => Ascii.eqb a b && startswith p' s'
  end.

(** [p in s] *)
Fixpoint contains (p s : string) : bool :=
  startswith p s ||
  match s with
  | EmptyString => false
  | String _ r => contains p r
  end.

(** [s.replace(old, new)] for a non-empty [old]: scan from the left; at a
    match emit [new] and skip the matched characters ([skip] counts the
    characters of the match still to drop). *)
Fixpoint replace_from (old new : string) (skip : nat) (s : string) : string :=
  match s with
  | EmptyString => EmptyString
  | String c r =>
      match skip with
      | S k => replace_from old new k r
      | O =>
          if startswith old s
          then new ++ replace_from old new (Nat.pred (String.length old)) r
          else String c (replace_from old new O r)
      end
  end.

Definition replace (old new s : string) : string := replace_from old new O s.

(** [sep.join(parts)] *)
Fixpoint join (sep : string) (parts : list string) : string :=
  match parts with
  | [] => EmptyString
  | [p] => p
  | p :: rest => p ++ sep ++ join sep rest
  end.

(** [str(n)] for an integer. *)
Definition of_Z (z : Z) : string := NilZero.string_of_int (Z.to_int z).

Definition is_digit (c : ascii) : bool :=
  let n := code c in ((48 <=? n) && (n <=? 57))%N.

Definition digit_val (c : ascii) : Z := Z.of_N (code c) - 48.

(** The white space [int()] skips around a literal: the ASCII blanks, and
    the two Latin-1 spaces that the interpreter first rewrites to a blank. *)
Definition int_space (c : ascii) : bool :=
  let n := code c in
  ((9 <=? n) && (n <=? 13) || (n =? 32) || (n =? 133) || (n =? 160))%N.

(** The digits of a literal, single underscores allowed between digits:
    the value read so far, the number of digits, and whether the previous
    character was an underscore. *)
Fixpoint digits_from (acc count : Z) (after_underscore : bool) (s : string)
  : option (Z * Z) :=
  match s with
  | EmptyString => if after_underscore then None else Some (acc, count)
  | String c r =>
      if is_digit c then digits_from (10 * acc + digit_val c) (count + 1) false r
      else if Ascii.eqb c "_"
           then (if after_underscore then None else digits_from acc count true r)
           else None
  end.

(** The interpreter's default limit on the digits of a decimal literal. *)
Definition max_str_digits : Z := 4300.

(** [int(s)] in base 10; [None] stands for [ValueError]. *)
Definition parse_int (s : string) : option Z :=
  let t := strip_by int_space s in
  let '(negative, body) :=
    match t with
    | String c r =>
        if Ascii.eqb c "+" then (false, r)
        else if Ascii.eqb c "-" then (true, r)
        else (false, t)
    | EmptyString => (false, t)
    end in
  match body with
  | EmptyString => None
  | String c _ =>
      if is_digit c then
        match digits_from 0 0 false body with
        | Some (v, n) =>
            if max_str_digits <? n then None
            else Some (if negative then - v else v)
        | None => None
        end
      else None
  end.

End PyStr.

(** ** Values produced by [json.load]

    An object keeps its members in document order; [json.load] builds a
    [dict] from them, so the last binding of a repeated key is the one
    [dict.get] sees.  [JNull] is Python's [None], which is also what
    [dict.get] answers for an absent key. *)

Inductive json : Type :=
| JNull
| JBool (b : bool)
| JInt (z : Z)
| JFloat (f : spec_float)
| JStr (s : string)
| JList (l : list json)
| JObj (members : list (string * json)).

(** ** Exceptions, events and the effect monad *)

Inductive exn_class : Type :=
| ValueError | TypeError | AttributeError | KeyError | IndexError
| OverflowError | OSError
| OtherException (name : string)
| KeyboardInterrupt | SystemExit | GeneratorExit.

(** [exn_msg] is [Some] for a [raise] statement of main.py and for an
    exception handed in by the environment with its text; it is [None] for
    an exception raised by the interpreter on main.py's behalf, the wording
    of which is not modelled. *)
Record exn : Type := mk_exn { exn_cls : exn_class; exn_msg : option string }.

(** [isinstance(e, Exception)]: what an [except Exception] clause catches. *)
Definition is_Exception (e : exn) : bool :=
  match exn_cls e with
  | KeyboardInterrupt | SystemExit | GeneratorExit => false
  | _ => true
  end.

Definition builtin (c : exn_class) : exn := mk_exn c None.

Inductive level : Type := INFO | WARNING | ERROR.

Inductive log_arg : Type :=
| ArgStr (s : string)
| ArgInt (z : Z)
| ArgExn (e : exn).

(** A [logging.LogRecord]: level, format string, arguments, and the
    exception whose traceback [log.exception] attaches. *)
Record log_record : Type := mk_log {
  log_level : level;
  log_fmt : string;
  log_args : list log_arg;
  log_exc : option exn
}.

(** What [get_connection] builds: the object only records where to
    connect; nothing is opened before [conn.request]. *)
Record connection : Type := mk_conn {
  conn_tls : bool;
  conn_host : string;
  conn_port : Z;
  conn_timeout : Z
}.

Record http_request : Type := mk_request {
  req_conn : connection;
  req_method : string;
  req_path : string;
  req_body : string;
  req_headers : list (string * string)
}.

(** Everything the program does to the outside world, in order. *)
Inductive event : Type :=
| EvLog (r : log_record)
| EvRequest (r : http_request)
| EvGetResponse
| EvRead
| EvClose
| EvSleep (seconds : Z).

Inductive outcome (A : Type) : Type :=
| Ok (a : A)
| Raise (e : exn).
Arguments Ok {A} a.
Arguments Raise {A} e.

(** A computation yields the events it produced and either a value or the
    exception that left it. *)
Definition M (A : Type) : Type := (list event * outcome A)%type.

Definition ret {A} (a : A) : M A := ([], Ok a).
Definition raise {A} (e : exn) : M A := ([], Raise e).
Definition emit (ev : event) : M unit := ([ev], Ok tt).

Definition bind {A B} (m : M A) (k : A -> M B) : M B :=
  match m with
  | (t, Ok a) => let (t', r) := k a in ((t ++ t')%list, r)
  | (t, Raise e) => (t, Raise e)
  end.

Notation "x <- m ;; k" := (bind m (fun x => k))
  (at level 61, m at next level, right associativity).
Notation "m ;;; k" := (bind m (fun _ => k))
  (at level 61, right associativity).

(** [try: body except Exception as e: handler(e)] *)
Definition try_except {A} (body : M A) (handler : exn -> M A) : M A :=
  match body with
  | (t, Ok a) => (t, Ok a)
  | (t, Raise e) =>
      if is_Exception e
      then let (t', r) := handler e in ((t ++ t')%list, r)
      else (t, Raise e)
  end.

(** [try: body except: handler] with a bare [except]: everything is caught. *)
Definition try_except_all {A} (body : M A) (handler : M A) : M A :=
  match body with
  | (t, Ok a) => (t, Ok a)
  | (t, Raise _) => let (t', r) := handler in ((t ++ t')%list, r)
  end.

(** [try: body finally: cleanup]: the cleanup always runs; the result is
    the body's, unless the cleanup itself raises. *)
Definition try_finally {A} (body : M A) (cleanup : M unit) : M A :=
  let (t, r) := body in
  match cleanup with
  | (t', Ok _) => ((t ++ t')%list, r)
  | (t', Raise e) => ((t ++ t')%list, Raise e)
  end.

(** The outcome of a call into the environment. *)
Definition env_result {A} (r : outcome A) : M A := ([], r).
Definition env_raises (r : option exn) : M unit :=
  match r with
  | None => ret tt
  | Some e => raise e
  end.

Definition trace_of {A} (m : M A) : list event := fst m.
Definition result_of {A} (m : M A) : outcome A := snd m.

Definition log_info (fmt : string) (args : list log_arg) : M unit :=
  emit (EvLog (mk_log INFO fmt args None)).
Definition log_warning (fmt : string) (args : list log_arg) : M unit :=
  emit (EvLog (mk_log WARNING fmt args None)).
Definition log_error (fmt : string) (args : list log_arg) : M unit :=
  emit (EvLog (mk_log ERROR fmt args None)).
(** [log.exception(fmt, e)] inside a handler for [e]. *)
Definition log_exception (fmt : string) (e : exn) : M unit :=
  emit (EvLog (mk_log ERROR fmt [ArgExn e] (Some e))).

Definition logs (t : list event) : list log_record :=
  flat_map (fun ev => match ev with EvLog r => [r] | _ => [] end) t.

Definition requests (t : list event) : list http_request :=
  flat_map (fun ev => match ev with EvRequest r => [r] | _ => [] end) t.

(** The text [logging] prints for a record: [fmt % args], the directives
    used by main.py being [%s] and [%d].  [None] when an argument is an
    exception of unmodelled wording. *)
Definition arg_text (a : log_arg) : option string :=
  match a with
  | ArgStr s => Some s
  | ArgInt z => Some (PyStr.of_Z z)
  | ArgExn e => exn_msg e
  end.

Fixpoint percent_format (fmt : string) (args : list log_arg) : option string :=
  match fmt with
  | EmptyString => match args with [] => Some EmptyString | _ => None end
  | String c r =>
      if Ascii.eqb c "%" then
        match r, args with
        | String d r', a :: args' =>
            if Ascii.eqb d "s" || Ascii.eqb d "d" then
              match arg_text a, percent_format r' args' with
              | Some x, Some y => Some (x ++ y)
              | _, _ => None
              end
            else None
        | _, _ => None
        end
      else option_map (String c) (percent_format r args)
  end.

Definition get_message (r : log_record) : option string :=
  percent_format (log_fmt r) (log_args r).

(** ** Python built-ins on JSON values *)

(** [bool(v)] *)
Definition truthy (v : json) : bool :=
  match v with
  | JNull => false
  | JBool b => b
  | JInt z => negb (z =? 0)
  | JFloat (S754_zero _) => false
  | JFloat _ => true
  | JStr EmptyString => false
  | JStr _ => true
  | JList [] => false
  | JList _ => true
  | JObj [] => false
  | JObj _ => true
  end.

(** [a or b] *)
Definition py_or (a b : json) : json := if truthy a then a else b.

(** The value bound to [k] in the [dict] built from the members. *)
Fixpoint dict_get (k : string) (members : list (string * json)) : option json :=
  match members with
  | [] => None
  | (k', v) :: rest =>
      match dict_get k rest with
      | Some w => Some w
      | None => if String.eqb k k' then Some v else None
      end
  end.

(** The [dict] without the key [k]. *)
Definition dict_remove (k : string) (members : list (string * json))
  : list (string * json) :=
  filter (fun kv => negb (String.eqb k (fst kv))) members.

(** [d.get(k)] on a [dict]: the value, or [None]. *)
Definition get_or_none (k : string) (members : list (string * json)) : json :=
  match dict_get k members with
  | Some x => x
  | None => JNull
  end.

(** [v.get(k)]: only a [dict] has the method. *)
Definition py_get (v : json) (k : string) : M json :=
  match v with
  | JObj members => ret (get_or_none k members)
  | _ => raise (builtin AttributeError)
  end.

(** [v[0]] *)
Definition py_index0 (v : json) : M json :=
  match v with
  | JList (x :: _) => ret x
  | JList [] => raise (builtin IndexError)
  | JStr (String c _) => ret (JStr (String c EmptyString))
  | JStr EmptyString => raise (builtin IndexError)
  | JObj _ => raise (builtin KeyError)
  | JNull | JBool _ | JInt _ | JFloat _ => raise (builtin TypeError)
  end.

(** [v.strip()]: only a [str] has the method. *)
Definition py_strip (v : json) : M string :=
  match v with
  | JStr s => ret (PyStr.strip s)
  | _ => raise (builtin AttributeError)
  end.

(** [int(f)] for a float: truncation toward zero. *)
Definition int_of_float (f : spec_float) : M Z :=
  match f with
  | S754_zero _ => ret 0
  | S754_infinity _ => raise (builtin OverflowError)
  | S754_nan => raise (builtin ValueError)
  | S754_finite s m e =>
      let magnitude :=
        if 0 <=? e then Z.pos m * 2 ^ e else Z.pos m / 2 ^ (- e) in
      ret (if s then - magnitude else magnitude)
  end.

(** [int(v)] *)
Definition py_int (v : json) : M Z :=
  match v with
  | JInt z => ret z
  | JBool b => ret (if b then 1 else 0)
  | JFloat f => int_of_float f
  | JStr s =>
      match PyStr.parse_int s with
      | Some z => ret z
      | None => raise (builtin ValueError)
      end
  | JNull | JList _ | JObj _ => raise (builtin TypeError)
  end.

Definition isinstance_list (v : json) : bool :=
  match v with JList _ => true | _ => false end.

(** [len(v)] and the elements of [v], for a [v] known to be a list. *)
Definition list_len (v : json) : Z :=
  match v with JList l => Z.of_nat (List.length l) | _ => 0 end.
Definition list_items (v : json) : list json :=
  match v with JList l => l | _ => [] end.

Definition dquote : string := String "034"%char EmptyString.

(** What [open] and [json.load] hand to [load_config]: the parsed document,
    or the exception either of them raised. *)
Definition file_read : Type := outcome json.

Section Bot.

(** [repr] of a float, a list or a dict: the text [str()] gives for them.
    It belongs to the interpreter, not to main.py. *)
Variable py_repr : json -> string.

(** [bytes.decode(errors="ignore")], from the interpreter as well. *)
Variable decode_ignore : list byte -> string.

(** [str(v)] *)
Definition py_str (v : json) : string :=
  match v with
  | JStr s => s
  | JInt z => PyStr.of_Z z
  | JBool true => "True"
  | JBool false => "False"
  | JNull => "None"
  | JFloat _ | JList _ | JObj _ => py_repr v
  end.

(** ** Config loader (main.py, lines 43-67) *)

Definition DEFAULT_MESSAGE : string := "Hello from VPS!".
Definition DEFAULT_INTERVAL : Z := 3600.
Definition CONFIG_ERROR : exn :=
  mk_exn ValueError
    (Some "Config missing required fields: 'token' and 'channelid'.").
Definition PREFIX_WARNING : string :=
  "Token missing " ++ dquote ++ "Bot " ++ dquote
  ++ " prefix. Adding automatically...".

(** Line 47: [cfg = (data.get('Config') or [{}])[0]] *)
Definition config_record (data : json) : M json :=
  config <- py_get data "Config" ;;
  py_index0 (py_or config (JList [JObj []])).

(** Lines 48-67, for the record [cfg]. *)
Definition load_record (cfg : json) : M (string * string * list json * Z) :=
  token <- py_get cfg "token" ;;
  token <- py_strip (py_or token (JStr EmptyString)) ;;
  channel_id <- py_get cfg "channelid" ;;
  let channel_id := PyStr.strip (py_str (py_or channel_id (JStr EmptyString))) in
  messages <- py_get cfg "messages" ;;
  messages <-
    (if negb (truthy messages && isinstance_list messages
              && (0 <? list_len messages))
     then
       single <- py_get cfg "message" ;;
       ret [py_or single (JStr DEFAULT_MESSAGE)]
     else ret (list_items messages)) ;;
  interval <- py_get cfg "interval_seconds" ;;
  interval <- py_int (py_or interval (JInt DEFAULT_INTERVAL)) ;;
  token <-
    (if truthy (JStr token)
        && negb (PyStr.startswith "bot " (PyStr.lower token))
     then log_warning PREFIX_WARNING [] ;;; ret ("Bot " ++ token)
     else ret token) ;;
  if negb (truthy (JStr token)) || negb (truthy (JStr channel_id))
  then raise CONFIG_ERROR
  else ret (channel_id, token, messages, interval).

Definition load_config (file : file_read) : M (string * string * list json * Z) :=
  data <- env_result file ;;
  cfg <- config_record data ;;
  load_record cfg.

(** ** HTTP helpers (main.py, lines 70-78) *)

Definition USER_AGENT : string := "DiscordBot".

Definition get_headers (token : string) : list (string * string) :=
  [ ("Content-Type", "application/json");
    ("User-Agent", USER_AGENT);
    ("Authorization", token) ].

Definition get_connection : connection :=
  mk_conn true "discord.com" 443 30.

(** ** Message renderer (main.py, lines 81-83) *)

(** A reading of [datetime.now()]. *)
Record datetime : Type := mk_datetime {
  dt_year : Z; dt_month : Z; dt_day : Z;
  dt_hour : Z; dt_minute : Z; dt_second : Z
}.

(** The field ranges of a reading; the year has four digits. *)
Definition valid_datetime (d : datetime) : Prop :=
  1000 <= dt_year d <= 9999 /\ 1 <= dt_month d <= 12 /\ 1 <= dt_day d <= 31
  /\ 0 <= dt_hour d <= 23 /\ 0 <= dt_minute d <= 59 /\ 0 <= dt_second d <= 59.

Fixpoint zeros (n : nat) : string :=
  match n with
  | O => EmptyString
  | S k => String "0" (zeros k)
  end.

(** A non-negative number in decimal, zero-padded to [width] characters. *)
Definition zero_pad (width : nat) (n : Z) : string :=
  let digits := PyStr.of_Z n in
  zeros (width - String.length digits) ++ digits.

(** [d.strftime("%Y-%m-%d %H:%M:%S")] *)
Definition strftime (d : datetime) : string :=
  zero_pad 4 (dt_year d) ++ "-" ++ zero_pad 2 (dt_month d) ++ "-"
  ++ zero_pad 2 (dt_day d) ++ " " ++ zero_pad 2 (dt_hour d) ++ ":"
  ++ zero_pad 2 (dt_minute d) ++ ":" ++ zero_pad 2 (dt_second d).

Definition PLACEHOLDER : string := "{now}".

Definition render_message (clock : datetime) (template : string) : string :=
  let now := strftime clock in
  PyStr.replace PLACEHOLDER now template.

(** ** JSON encoding of the request body ([json.dumps], default options) *)

Definition hex_digit (n : N) : ascii :=
  if (n <? 10)%N then ascii_of_N (48 + n) else ascii_of_N (87 + n).

(** One character of a JSON string with [ensure_ascii]: the two-character
    escapes, printable ASCII as it is, everything else as a u-escape. *)
Definition json_escape_char (c : ascii) : string :=
  let n := PyStr.code c in
  let bs := String "092"%char EmptyString in
  if (n =? 34)%N then bs ++ dquote
  else if (n =? 92)%N then bs ++ bs
  else if (n =? 10)%N then bs ++ "n"
  else if (n =? 13)%N then bs ++ "r"
  else if (n =? 9)%N then bs ++ "t"
  else if (n =? 8)%N then bs ++ "b"
  else if (n =? 12)%N then bs ++ "f"
  else if ((32 <=? n) && (n <=? 126))%N then String c EmptyString
  else bs ++ "u00" ++ String (hex_digit (n / 16)) (String (hex_digit (n mod 16)) EmptyString).

Fixpoint json_escape (s : string) : string :=
  match s with
  | EmptyString => EmptyString
  | String c r => json_escape_char c ++ json_escape r
  end.

Definition json_string (s : string) : string := dquote ++ json_escape s ++ dquote.

(** [json.dumps({"content": content, "tts": False})] *)
Definition dumps_message (content : string) : string :=
  "{" ++ json_string "content" ++ ": " ++ json_string content ++ ", "
  ++ json_string "tts" ++ ": false}".

(** ** Send message (main.py, lines 86-105) *)

(** What the network does to one call: whether [conn.request],
    [conn.getresponse], [resp.read] and [conn.close] raise, and the status,
    reason and body of the response. *)
Record net_script : Type := mk_net {
  on_request : option exn;
  on_getresponse : outcome (Z * string);
  on_read : outcome (list byte);
  on_close : option exn
}.

Definition SENT_OK : string := "Message sent successfully.".
Definition HTTP_ERROR_FMT : string := "HTTP %s %s | response: %s".
Definition SEND_EXC_FMT : string := "Exception while sending message: %s".

Definition messages_path (channel_id : string) : string :=
  "/api/v10/channels/" ++ channel_id ++ "/messages".

(** [resp_body[:300] if resp_body else b''] *)
Definition body_head (resp_body : list byte) : list byte :=
  match resp_body with
  | [] => []
  | _ => firstn 300 resp_body
  end.

Definition send_message (net : net_script) (channel_id token content : string)
  : M unit :=
  let body := dumps_message content in
  let headers := get_headers token in
  let conn := get_connection in
  try_finally
    (try_except
       (emit (EvRequest (mk_request conn "POST" (messages_path channel_id)
                           body headers)) ;;;
        env_raises (on_request net) ;;;
        emit EvGetResponse ;;;
        resp <- env_result (on_getresponse net) ;;
        emit EvRead ;;;
        resp_body <- env_result (on_read net) ;;
        let '(status, reason) := resp in
        if (199 <? status) && (status <? 300)
        then log_info SENT_OK []
        else
          let snippet := decode_ignore (body_head resp_body) in
          log_error HTTP_ERROR_FMT [ArgInt status; ArgStr reason; ArgStr snippet])
       (fun e => log_exception SEND_EXC_FMT e))
    (try_except_all (emit EvClose ;;; env_raises (on_close net)) (ret tt)).

(** ** Main loop (main.py, lines 108-120) *)

(** What the environment supplies to one iteration: the draw of
    [random.choice], the clock, the network, and whether [time.sleep] is
    cut short by an exception. *)
Record tick_env : Type := mk_tick {
  draw : nat;
  clock : datetime;
  net : net_script;
  on_sleep : option exn
}.

(** [random.choice(seq)] with the draw [r]. *)
Definition random_choice (r : nat) (seq : list json) : M json :=
  match seq with
  | [] => raise (builtin IndexError)
  | x :: _ => ret (nth (r mod List.length seq) seq x)
  end.

(** [render_message(template)] on whatever the list holds: only a [str]
    has [replace]. *)
Definition render_value (now : datetime) (template : json) : M string :=
  match template with
  | JStr s => ret (render_message now s)
  | _ => raise (builtin AttributeError)
  end.

(** The longest sleep, in seconds: [time.sleep] first converts its argument
    to nanoseconds in a signed 64-bit integer, and 9223372037 seconds no
    longer fit. *)
Definition SLEEP_LIMIT : Z := 9223372036.

(** [time.sleep(seconds)] for an integer: OverflowError when the
    conversion fails, in either sign; then ValueError for a negative length;
    otherwise the sleep, which the environment may interrupt. *)
Definition sleep (env : tick_env) (seconds : Z) : M unit :=
  emit (EvSleep seconds) ;;;
  if (seconds <? - SLEEP_LIMIT) || (SLEEP_LIMIT <? seconds)
  then raise (builtin OverflowError)
  else if seconds <? 0 then raise (builtin ValueError)
  else env_raises (on_sleep env).

Definition LOOP_EXC_FMT : string := "Error in loop: %s".
Definition STARTED_FMT : string :=
  "Bot started | channel=%s | interval=%ss | messages=%d".

(** The suite of the [try] statement (lines 115-117). *)
Definition attempt_body (env : tick_env) (channel_id token : string)
  (messages : list json) : M unit :=
  msg_template <- random_choice (draw env) messages ;;
  content <- render_value (clock env) msg_template ;;
  send_message (net env) channel_id token content.

(** The [try] statement of one iteration (lines 114-119). *)
Definition attempt (env : tick_env) (channel_id token : string)
  (messages : list json) : M unit :=
  try_except
    (attempt_body env channel_id token messages)
    (fun e => log_exception LOOP_EXC_FMT e).

(** One iteration of [while True] (lines 114-120). *)
Definition tick (env : tick_env) (channel_id token : string)
  (messages : list json) (interval : Z) : M unit :=
  attempt env channel_id token messages ;;;
  sleep env interval.

(** The loop run over the environments of its first iterations; [Ok]
    means that the loop is still running after them. *)
Fixpoint run_loop (envs : list tick_env) (channel_id token : string)
  (messages : list json) (interval : Z) : M unit :=
  match envs with
  | [] => ret tt
  | env :: rest =>
      tick env channel_id token messages interval ;;;
      run_loop rest channel_id token messages interval
  end.

Definition main (file : file_read) (envs : list tick_env) : M unit :=
  cfg <- load_config file ;;
  let '(channel_id, token, messages, interval) := cfg in
  log_info STARTED_FMT
    [ArgStr channel_id; ArgInt interval;
     ArgInt (Z.of_nat (List.length messages))] ;;;
  run_loop envs channel_id token messages interval.

End Bot.

(** ** Vocabulary of the statements *)

(** [s.split(old)] for a non-empty [old], scanning as [replace_from] does:
    the texts between the occurrences that [replace] substitutes. *)
Fixpoint split_from (old : string) (skip : nat) (s : string) : list string :=
  match s with
  | EmptyString => [EmptyString]
  | String c r =>
      match skip with
      | S k => split_from old k r
      | O =>
          if PyStr.startswith old s
          then EmptyString :: split_from old (Nat.pred (String.length old)) r
          else match split_from old O r with
               | p :: ps => String c p :: ps
               | [] => [String c EmptyString]
               end
      end
  end.

Definition split (old s : string) : list string := split_from old O s.

(** [s[n:]] *)
Fixpoint drop (n : nat) (s : string) : string :=
  match n, s with
  | O, _ => s
  | S k, EmptyString => EmptyString
  | S k, String _ r => drop k r
  end.

Fixpoint all_chars (f : ascii -> bool) (s : string) : bool :=
  match s with
  | EmptyString => true
  | String c r => f c && all_chars f r
  end.

(** The shape [YYYY-MM-DD HH:MM:SS]: digits in groups of 4, 2, 2, 2, 2, 2
    with the separators between them. *)
Fixpoint matches_shape (shape s : string) : bool :=
  match shape, s with
  | EmptyString, EmptyString => true
  | String k shape', String c s' =>
      (if Ascii.eqb k "d" then PyStr.is_digit c else Ascii.eqb k c)
      && matches_shape shape' s'
  | _, _ => false
  end.

Definition TIMESTAMP_SHAPE : string := "dddd-dd-dd dd:dd:dd".

(** Reading a timestamp back: [width] decimal digits and their value, a
    separator, and the six numbers of YYYY-MM-DD HH:MM:SS with nothing
    after them. *)
Fixpoint read_digits (width : nat) (acc : Z) (s : string) : option (Z * string) :=
  match width with
  | O => Some (acc, s)
  | S k =>
      match s with
      | String c r =>
          if PyStr.is_digit c
          then read_digits k (10 * acc + PyStr.digit_val c) r
          else None
      | EmptyString => None
      end
  end.

Definition expect (c : ascii) (s : string) : option string :=
  match s with
  | String d r => if Ascii.eqb c d then Some r else None
  | EmptyString => None
  end.

Definition and_then {A B : Type} (o : option A) (k : A -> option B) : option B :=
  match o with
  | Some a => k a
  | None => None
  end.

Definition read_timestamp (s : string) : option datetime :=
  and_then (read_digits 4 0 s) (fun '(year, s) =>
  and_then (expect "-" s) (fun s =>
  and_then (read_digits 2 0 s) (fun '(month, s) =>
  and_then (expect "-" s) (fun s =>
  and_then (read_digits 2 0 s) (fun '(day, s) =>
  and_then (expect " " s) (fun s =>
  and_then (read_digits 2 0 s) (fun '(hour, s) =>
  and_then (expect ":" s) (fun s =>
  and_then (read_digits 2 0 s) (fun '(minute, s) =>
  and_then (expect ":" s) (fun s =>
  and_then (read_digits 2 0 s) (fun '(second, s) =>
  match s with
  | EmptyString => Some (mk_datetime year month day hour minute second)
  | String _ _ => None
  end))))))))))).

(** A character that is none of those of "{now}". *)
Definition plain (c : ascii) : bool :=
  negb (Ascii.eqb "{" c || Ascii.eqb "n" c || Ascii.eqb "o" c
        || Ascii.eqb "w" c || Ascii.eqb "}" c).

(** No step of the script raises anything but an [Exception]. *)
Definition raises_only_Exception {A} (r : outcome A) : bool :=
  match r with
  | Ok _ => true
  | Raise e => is_Exception e
  end.

Definition net_ordinary (n : net_script) : bool :=
  match on_request n with Some e => is_Exception e | None => true end
  && raises_only_Exception (on_getresponse n)
  && raises_only_Exception (on_read n).

(** The exception a script makes the [try] body of [send_message] raise. *)
Definition net_failure (n : net_script) : option exn :=
  match on_request n with
  | Some e => Some e
  | None =>
      match on_getresponse n with
      | Raise e => Some e
      | Ok _ =>
          match on_read n with
          | Raise e => Some e
          | Ok _ => None
          end
      end
  end.

Definition sleeps (t : list event) : list Z :=
  flat_map (fun ev => match ev with EvSleep s => [s] | _ => [] end) t.

(** The templates as the specification words them: the [messages] list
    when it is a non-empty list, else the [message] field when the record
    has one, else the built-in text. *)
Definition templates_as_specified (members : list (string * json)) : list json :=
  match get_or_none "messages" members with
  | JList (x :: l) => x :: l
  | _ =>
      match dict_get "message" members with
      | Some m => [m]
      | None => [JStr "Hello from VPS!"]
      end
  end.

(** The document [{"Config": [record]}]. *)
Definition config_document (members : list (string * json)) : json :=
  JObj [("Config", JList [JObj members])].

(** The token is missing from the record, or is a string that is empty
    once trimmed. *)
Definition token_missing_or_blank (members : list (string * json)) : Prop :=
  dict_get "token" members = None
  \/ exists s, dict_get "token" members = Some (JStr s)
               /\ PyStr.strip s = EmptyString.

(** The channel id is missing from the record, or is empty once converted
    and trimmed. *)
Definition channelid_missing_or_blank (py_repr : json -> string)
  (members : list (string * json)) : Prop :=
  dict_get "channelid" members = None
  \/ exists v, dict_get "channelid" members = Some v
               /\ PyStr.strip (py_str py_repr (py_or v (JStr EmptyString)))
                  = EmptyString.

(** Reading a JSON string back (RFC 8259, for code points below 256): the
    inverse that a receiver applies to what [json_escape] wrote. *)
Definition hex_value (c : ascii) : option N :=
  let n := PyStr.code c in
  if ((48 <=? n) && (n <=? 57))%N then Some (n - 48)%N
  else if ((97 <=? n) && (n <=? 102))%N then Some (n - 87)%N
  else if ((65 <=? n) && (n <=? 70))%N then Some (n - 55)%N
  else None.

Definition is_printable_ascii (c : ascii) : bool :=
  let n := PyStr.code c in ((32 <=? n) && (n <=? 126))%N.

Fixpoint json_unescape (s : string) : option string :=
  match s with
  | EmptyString => Some EmptyString
  | String c r =>
      let n := PyStr.code c in
      if (n =? 92)%N then
        match r with
        | EmptyString => None
        | String e r' =>
            let k := PyStr.code e in
            let simple (x : N) := option_map (String (ascii_of_N x)) (json_unescape r') in
            if (k =? 34)%N then simple 34%N
            else if (k =? 92)%N then simple 92%N
            else if (k =? 47)%N then simple 47%N
            else if (k =? 110)%N then simple 10%N
            else if (k =? 114)%N then simple 13%N
            else if (k =? 116)%N then simple 9%N
            else if (k =? 98)%N then simple 8%N
            else if (k =? 102)%N then simple 12%N
            else if (k =? 117)%N then
              match r' with
              | String h1 (String h2 (String h3 (String h4 r''))) =>
                  match hex_value h1, hex_value h2, hex_value h3, hex_value h4 with
                  | Some 0%N, Some 0%N, Some a, Some b =>
                      option_map (String (ascii_of_N (16 * a + b)))
                        (json_unescape r'')
                  | _, _, _, _ => None
                  end
              | _ => None
              end
            else None
        end
      else if (n =? 34)%N || (n <? 32)%N then None
      else option_map (String c) (json_unescape r)
  end.

(** ** Sample inputs *)

(** Decoding of ASCII bytes: on them [bytes.decode] gives the characters
    themselves, whatever the error handler. *)
Definition decode_ascii (bs : list byte) : string :=
  string_of_list_byte (filter (fun b => (Byte.to_N b <? 128)%N) bs).

(** No sample below holds a float, a list or a dict where [str()] is
    applied, so any text serves for their [repr]. *)
Definition repr_unused (v : json) : string := EmptyString.

Definition sample_clock : datetime := mk_datetime 2024 1 5 3 4 59.

(** {"token": " abc ", "channelid": 123} *)
Definition record_unprefixed : list (string * json) :=
  [("token", JStr " abc "); ("channelid", JInt 123)].

(** {"channelid": "123"}: no token. *)
Definition record_without_token : list (string * json) :=
  [("channelid", JStr "123")].

(** {"token": "Bot t", "channelid": 0} *)
Definition record_zero_channel : list (string * json) :=
  [("token", JStr "Bot t"); ("channelid", JInt 0)].

(** {"token": "Bot t", "channelid": "1", "interval_seconds": -5} *)
Definition record_negative_interval : list (string * json) :=
  [("token", JStr "Bot t"); ("channelid", JStr "1");
   ("interval_seconds", JInt (-5))].

(** {"token": "Bot t", "channelid": "1", "interval_seconds": "soon"} *)
Definition record_worded_interval : list (string * json) :=
  [("token", JStr "Bot t"); ("channelid", JStr "1");
   ("interval_seconds", JStr "soon")].

(** {"token": "Bot t", "channelid": "1", "message": ""} *)
Definition record_blank_message : list (string * json) :=
  [("token", JStr "Bot t"); ("channelid", JStr "1");
   ("message", JStr EmptyString)].

(** {"token": "Bot t", "channelid": "1", "messages": "A", "message": "B"} *)
Definition record_messages_not_a_list : list (string * json) :=
  [("token", JStr "Bot t"); ("channelid", JStr "1");
   ("messages", JStr "A"); ("message", JStr "B")].

(** The network answers 404 Not Found with {"message":"Unknown Channel"}. *)
Definition unknown_channel_body : list byte :=
  list_byte_of_string
    ("{" ++ dquote ++ "message" ++ dquote ++ ":" ++ dquote
     ++ "Unknown Channel" ++ dquote ++ "}").
Definition net_404 : net_script :=
  mk_net None (Ok (404, "Not Found")) (Ok unknown_channel_body) None.

(** The network answers 204 No Content. *)
Definition net_204 : net_script :=
  mk_net None (Ok (204, "No Content")) (Ok []) None.

(** The connection cannot be made. *)
Definition dns_failure : exn :=
  mk_exn OSError (Some "[Errno -2] Name or service not known").
Definition net_down : net_script :=
  mk_net (Some dns_failure) (Ok (0, EmptyString)) (Ok []) None.

Definition two_ticks : list tick_env :=
  [mk_tick 0 sample_clock net_down None; mk_tick 1 sample_clock net_404 None].

(** Ctrl-C, as the interpreter raises it. *)
Definition ctrl_c : exn := mk_exn KeyboardInterrupt None.

(** The request is interrupted. *)
Definition net_interrupted : net_script :=
  mk_net (Some ctrl_c) (Ok (0, EmptyString)) (Ok []) None.

Definition tick_sent : tick_env := mk_tick 0 sample_clock net_204 None.
Definition tick_interrupted_send : tick_env :=
  mk_tick 0 sample_clock net_interrupted None.
Definition tick_interrupted_sleep : tick_env :=
  mk_tick 0 sample_clock net_204 (Some ctrl_c).

(** {"token": "Bot t", "channelid": "1", "interval_seconds": -10000000000} *)
Definition record_huge_negative_interval : list (string * json) :=
  [("token", JStr "Bot t"); ("channelid", JStr "1");
   ("interval_seconds", JInt (-10000000000))].

(** {"token": "Bot t", "channelid": true} *)
Definition record_true_channel : list (string * json) :=
  [("token", JStr "Bot t"); ("channelid", JBool true)].

(** {"token": 5, "channelid": "1"} *)
Definition record_numeric_token : list (string * json) :=
  [("token", JInt 5); ("channelid", JStr "1")].

(** {"token": "abc", "channelid": " 42 "} *)
Definition record_spaced_channel : list (string * json) :=
  [("token", JStr "abc"); ("channelid", JStr " 42 ")].

(** ** Entry point (main.py, lines 122-127) *)

(** How the process ends: [sys.exit(code)], or an exception that reaches
    the interpreter. *)
Inductive exit : Type :=
| Exited (code : Z)
| Uncaught (e : exn).

(** [isinstance(e, KeyboardInterrupt)] *)
Definition is_KeyboardInterrupt (e : exn) : bool :=
  match exn_cls e with
  | KeyboardInterrupt => true
  | _ => false
  end.

Definition STOPPED : string := "Stopped by user (KeyboardInterrupt).".

Section Entry.
Variable py_repr : json -> string.
Variable decode_ignore : list byte -> string.

(** The guarded call of [main]: the events, and how the process ended,
    [None] while the loop is still running after the given iterations. *)
Definition run_main (file : file_read) (envs : list tick_env)
  : list event * option exit :=
  match main py_repr decode_ignore file envs with
  | (t, Ok _) => (t, None)
  | (t, Raise e) =>
      if is_KeyboardInterrupt e
      then ((t ++ [EvLog (mk_log INFO STOPPED [] None)])%list, Some (Exited 0))
      else (t, Some (Uncaught e))
  end.

End Entry.

(** ** Vocabulary of the further statements *)

(** [isinstance(v, str)] *)
Definition is_str (v : json) : bool :=
  match v with JStr _ => true | _ => false end.

(** The calls made on the connection, the log records left out. *)
Definition io_events (t : list event) : list event :=
  filter (fun ev => match ev with EvLog _ => false | _ => true end) t.

(** The same script with another outcome of [conn.close]. *)
Definition with_close (n : net_script) (c : option exn) : net_script :=
  mk_net (on_request n) (on_getresponse n) (on_read n) c.

(** A trace is paced when every sleep lasts [interval] and no two requests
    follow each other without a sleep between them; [pending] tells
    whether a request has been made since the last sleep. *)
Fixpoint paced (interval : Z) (pending : bool) (t : list event) : bool :=
  match t with
  | [] => true
  | EvRequest _ :: r => negb pending && paced interval true r
  | EvSleep s :: r => (s =? interval) && paced interval false r
  | _ :: r => paced interval pending r
  end.

(** The record the loop logs for an exception of an iteration. *)
Definition loop_error_record (e : exn) : log_record :=
  mk_log ERROR LOOP_EXC_FMT [ArgExn e] (Some e).

(** A text that is empty or begins with a character outside [sp]. *)
Definition starts_clear (sp : ascii -> bool) (s : string) : Prop :=
  match s with
  | EmptyString => True
  | String c _ => sp c = false
  end.

Definition is_obj (v : json) : bool :=
  match v with JObj _ => true | _ => false end.

(** The record logged when the prefix is added. *)
Definition prefix_warning_record : log_record :=
  mk_log WARNING PREFIX_WARNING [] None.

(** Not white space: a character [str.strip] never removes. *)
Definition unspaced (c : ascii) : bool := negb (PyStr.is_space c).

(** * Properties *)

(** ** The effect monad *)

Lemma bind_ret_l {A B} (a : A) (k : A -> M B) : bind (ret a) k = k a.
Proof. unfold bind, ret. destruct (k a); reflexivity. Qed.

Lemma bind_raise_l {A B} (e : exn) (k : A -> M B) : bind (raise e) k = raise e.
Proof. reflexivity. Qed.

Lemma bind_emit {B} (ev : event) (k : unit -> M B) :
  bind (emit ev) k = (ev :: trace_of (k tt), result_of (k tt)).
Proof. unfold bind, emit. destruct (k tt); reflexivity. Qed.

Lemma bind_Ok_inv {A B} (m : M A) (k : A -> M B) t b :
  bind m k = (t, Ok b) ->
  exists t1 a t2, m = (t1, Ok a) /\ k a = (t2, Ok b) /\ t = (t1 ++ t2)%list.
Proof.
  destruct m as [t1 [a | e]]; simpl; [| discriminate].
  destruct (k a) as [t2 r] eqn:Hk. intros H; inversion H; subst.
  exists t1, a, t2. auto.
Qed.

Lemma result_of_bind {A B} (m : M A) (k : A -> M B) :
  result_of (bind m k) =
  match result_of m with
  | Ok a => result_of (k a)
  | Raise e => Raise e
  end.
Proof.
  destruct m as [t [a | e]]; simpl; [| reflexivity].
  destruct (k a); reflexivity.
Qed.

Lemma trace_of_bind {A B} (m : M A) (k : A -> M B) :
  trace_of (bind m k) =
  match result_of m with
  | Ok a => (trace_of m ++ trace_of (k a))%list
  | Raise _ => trace_of m
  end.
Proof.
  destruct m as [t [a | e]]; simpl; [| reflexivity].
  destruct (k a); reflexivity.
Qed.

Lemma surjective_M {A} (m : M A) : m = (trace_of m, result_of m).
Proof. destruct m; reflexivity. Qed.

(** ** Strings *)

Lemma startswith_bot_prefixed (s : string) :
  PyStr.startswith "bot " (PyStr.lower ("Bot " ++ s)) = true.
Proof. reflexivity. Qed.

Lemma truthy_str_false (s : string) : truthy (JStr s) = false <-> s = EmptyString.
Proof. destruct s; simpl; split; congruence. Qed.

Lemma truthy_str_true (s : string) : truthy (JStr s) = true <-> s <> EmptyString.
Proof. destruct s; simpl; split; congruence. Qed.

(** ** Dictionaries *)

Lemma dict_get_remove_same (k : string) (members : list (string * json)) :
  dict_get k (dict_remove k members) = None.
Proof.
  induction members as [| [k' v] rest IH]; simpl; [reflexivity |].
  destruct (String.eqb k k') eqn:E; simpl; [exact IH |].
  rewrite IH, E. reflexivity.
Qed.

Lemma dict_get_remove_other (k k' : string) (members : list (string * json)) :
  String.eqb k' k = false ->
  dict_get k (dict_remove k' members) = dict_get k members.
Proof.
  intros Hne. induction members as [| [k0 v] rest IH]; simpl; [reflexivity |].
  destruct (String.eqb k' k0) eqn:E; simpl.
  - rewrite IH. destruct (dict_get k rest); [reflexivity |].
    apply String.eqb_eq in E. subst k0.
    rewrite String.eqb_sym, Hne. reflexivity.
  - rewrite IH. reflexivity.
Qed.

Lemma py_or_falsy (v d : json) : truthy v = false -> py_or v d = d.
Proof. unfold py_or. intros ->. reflexivity. Qed.

Lemma py_or_truthy (v d : json) : truthy v = true -> py_or v d = v.
Proof. unfold py_or. intros ->. reflexivity. Qed.

Lemma trace_of_py_int (v : json) : trace_of (py_int v) = [].
Proof.
  destruct v as [| b | z | f | s | l | m]; simpl; try reflexivity.
  - destruct f; reflexivity.
  - destruct (PyStr.parse_int s); reflexivity.
Qed.

(** ** Config loader *)

Section Loader.
Variable py_repr : json -> string.

(** The templates [load_record] computes from the members of a record. *)
Lemma messages_branch (members : list (string * json)) :
  let messages := get_or_none "messages" members in
  (truthy messages && isinstance_list messages && (0 <? list_len messages) = true
   <-> exists x l, messages = JList (x :: l)).
Proof.
  cbv zeta. destruct (get_or_none "messages" members) as [| b | z | f | s | l | m];
    simpl; try rewrite andb_false_r;
    try (split; [discriminate | intros (x & l' & H); discriminate]).
  destruct l as [| x l]; simpl.
  - split; [discriminate | intros (x & l' & H); discriminate].
  - split; [intros _; eauto | intros _]. unfold list_len.
    apply Z.ltb_lt. simpl List.length. lia.
Qed.

(** [load_record] on a [dict], with the pure steps inlined: the two steps
    that can raise come first, then the prefixing and the validation. *)
Lemma load_record_obj (members : list (string * json)) :
  load_record py_repr (JObj members) =
  (token <- py_strip (py_or (get_or_none "token" members) (JStr EmptyString)) ;;
   interval <- py_int (py_or (get_or_none "interval_seconds" members)
                             (JInt DEFAULT_INTERVAL)) ;;
   let channel_id :=
     PyStr.strip (py_str py_repr (py_or (get_or_none "channelid" members)
                                        (JStr EmptyString))) in
   let messages := get_or_none "messages" members in
   let messages :=
     if negb (truthy messages && isinstance_list messages
              && (0 <? list_len messages))
     then [py_or (get_or_none "message" members) (JStr DEFAULT_MESSAGE)]
     else list_items messages in
   token <-
     (if truthy (JStr token)
         && negb (PyStr.startswith "bot " (PyStr.lower token))
      then log_warning PREFIX_WARNING [] ;;; ret ("Bot " ++ token)
      else ret token) ;;
   if negb (truthy (JStr token)) || negb (truthy (JStr channel_id))
   then raise CONFIG_ERROR
   else ret (channel_id, token, messages, interval)).
Proof.
  unfold load_record, py_get. rewrite bind_ret_l.
  destruct (py_strip (py_or (get_or_none "token" members) (JStr EmptyString)))
    as [t0 [token | e]] eqn:Hstrip; [| reflexivity].
  assert (Ht0 : t0 = []).
  { unfold py_strip in Hstrip.
    destruct (py_or (get_or_none "token" members) (JStr EmptyString));
      inversion Hstrip; reflexivity. }
  subst t0. change ([], Ok token) with (ret (A := string) token).
  rewrite !bind_ret_l.
  destruct (negb (truthy (get_or_none "messages" members)
                  && isinstance_list (get_or_none "messages" members)
                  && (0 <? list_len (get_or_none "messages" members))));
    rewrite !bind_ret_l; reflexivity.
Qed.

Lemma config_record_trace (data : json) : trace_of (config_record data) = [].
Proof.
  unfold config_record.
  destruct data as [| b | z | f | s | l | m]; try reflexivity.
  unfold py_get. rewrite bind_ret_l.
  destruct (py_or (get_or_none "Config" m) (JList [JObj []]))
    as [| b | z | f | s | l | m']; try reflexivity.
  - destruct s; reflexivity.
  - destruct l; reflexivity.
Qed.

Lemma messages_of_record (members : list (string * json)) :
  (if negb (truthy (get_or_none "messages" members)
            && isinstance_list (get_or_none "messages" members)
            && (0 <? list_len (get_or_none "messages" members)))
   then [py_or (get_or_none "message" members) (JStr DEFAULT_MESSAGE)]
   else list_items (get_or_none "messages" members)) =
  match get_or_none "messages" members with
  | JList (x :: l) => x :: l
  | _ => [py_or (get_or_none "message" members) (JStr DEFAULT_MESSAGE)]
  end.
Proof.
  destruct (get_or_none "messages" members) as [| b | z | f | s | l | m];
    simpl; try rewrite andb_false_r; try reflexivity.
  destruct l; reflexivity.
Qed.

(** What a successful [load_record] returns, field by field. *)
Lemma load_record_Ok_inv (cfg : json) t ch tok msgs iv :
  load_record py_repr cfg = (t, Ok (ch, tok, msgs, iv)) ->
  exists members raw,
    cfg = JObj members
    /\ py_or (get_or_none "token" members) (JStr EmptyString) = JStr raw
    /\ PyStr.strip raw <> EmptyString
    /\ tok = (if PyStr.startswith "bot " (PyStr.lower (PyStr.strip raw))
              then PyStr.strip raw else "Bot " ++ PyStr.strip raw)
    /\ t = (if PyStr.startswith "bot " (PyStr.lower (PyStr.strip raw))
            then [] else [EvLog (mk_log WARNING PREFIX_WARNING [] None)])
    /\ ch = PyStr.strip (py_str py_repr (py_or (get_or_none "channelid" members)
                                               (JStr EmptyString)))
    /\ ch <> EmptyString
    /\ msgs = match get_or_none "messages" members with
              | JList (x :: l) => x :: l
              | _ => [py_or (get_or_none "message" members) (JStr DEFAULT_MESSAGE)]
              end
    /\ py_int (py_or (get_or_none "interval_seconds" members)
                     (JInt DEFAULT_INTERVAL)) = ([], Ok iv).
Proof.
  destruct cfg as [| b | z | f | s | l | members]; try discriminate.
  rewrite load_record_obj. cbv zeta. rewrite messages_of_record.
  destruct (py_or (get_or_none "token" members) (JStr EmptyString))
    as [| b | z | f | raw | l | m] eqn:Htok; try discriminate.
  unfold py_strip. rewrite bind_ret_l.
  pose proof (trace_of_py_int (py_or (get_or_none "interval_seconds" members)
                                     (JInt DEFAULT_INTERVAL))) as Hti.
  destruct (py_int _) as [ti [iv' | e]] eqn:Hint; [| discriminate].
  simpl in Hti. subst ti. change ([], Ok iv') with (ret (A := Z) iv').
  rewrite bind_ret_l. cbv zeta.
  set (ch0 := PyStr.strip (py_str py_repr _)).
  set (tok0 := PyStr.strip raw).
  intros H. exists members, raw.
  destruct (truthy (JStr tok0)) eqn:Etok;
    destruct (PyStr.startswith "bot " (PyStr.lower tok0)) eqn:Epre;
    cbn [andb negb] in H.
  - rewrite bind_ret_l, Etok in H.
    destruct (truthy (JStr ch0)) eqn:Ech; cbn [negb orb] in H;
      [| discriminate].
    apply truthy_str_true in Etok, Ech. inversion H; subst ch tok msgs iv t.
    unfold tok0, ch0 in *. rewrite Epre. repeat split; auto.
  - unfold log_warning in H. rewrite bind_emit in H.
    cbn [trace_of result_of ret fst snd bind] in H.
    change (truthy (JStr ("Bot " ++ tok0))) with true in H.
    destruct (truthy (JStr ch0)) eqn:Ech; cbn [negb orb] in H;
      [| discriminate].
    apply truthy_str_true in Etok, Ech. inversion H; subst ch tok msgs iv t.
    unfold tok0, ch0 in *. rewrite Epre. repeat split; auto.
  - rewrite bind_ret_l, Etok in H. discriminate.
  - rewrite bind_ret_l, Etok in H. discriminate.
Qed.

Lemma load_config_Ok_inv (file : file_read) t ch tok msgs iv :
  load_config py_repr file = (t, Ok (ch, tok, msgs, iv)) ->
  exists data cfg,
    file = Ok data /\ config_record data = ([], Ok cfg)
    /\ load_record py_repr cfg = (t, Ok (ch, tok, msgs, iv)).
Proof.
  unfold load_config, env_result. intros H.
  apply bind_Ok_inv in H. destruct H as (t1 & data & t2 & H1 & H2 & ->).
  inversion H1; subst. clear H1.
  apply bind_Ok_inv in H2. destruct H2 as (t3 & cfg & t4 & H3 & H4 & ->).
  pose proof (config_record_trace data) as Ht. rewrite H3 in Ht. simpl in Ht.
  subst t3. exists data, cfg. auto.
Qed.

Lemma token_blank_processed (members : list (string * json)) :
  token_missing_or_blank members ->
  exists raw, py_or (get_or_none "token" members) (JStr EmptyString) = JStr raw
              /\ PyStr.strip raw = EmptyString.
Proof.
  unfold get_or_none. intros [H | (s & H & Hs)]; rewrite H.
  - exists EmptyString. split; reflexivity.
  - unfold py_or. destruct (truthy (JStr s)).
    + exists s. auto.
    + exists EmptyString. split; reflexivity.
Qed.

Lemma channelid_blank_processed (members : list (string * json)) :
  channelid_missing_or_blank py_repr members ->
  PyStr.strip (py_str py_repr (py_or (get_or_none "channelid" members)
                                     (JStr EmptyString))) = EmptyString.
Proof.
  unfold get_or_none. intros [H | (v & H & Hv)]; rewrite H.
  - reflexivity.
  - exact Hv.
Qed.

(** A record whose processed token or channel id is empty is never
    accepted. *)
Lemma load_record_blank_not_Ok (members : list (string * json)) t r :
  token_missing_or_blank members \/ channelid_missing_or_blank py_repr members ->
  load_record py_repr (JObj members) <> (t, Ok r).
Proof.
  intros Hblank H. destruct r as [[[ch tok] msgs] iv].
  apply load_record_Ok_inv in H.
  destruct H as (m & raw & Hm & Htok & Hne & _ & _ & Hch & Hchne & _).
  inversion Hm; subst m. destruct Hblank as [Hb | Hb].
  - apply token_blank_processed in Hb. destruct Hb as (raw' & Hr & Hs).
    rewrite Hr in Htok. inversion Htok; subst. contradiction.
  - apply channelid_blank_processed in Hb. rewrite Hb in Hch. contradiction.
Qed.

(** When the steps before the validation do not raise, the exception is
    the one of line 65. *)
Lemma load_record_blank_config_error (members : list (string * json)) raw iv :
  py_or (get_or_none "token" members) (JStr EmptyString) = JStr raw ->
  py_int (py_or (get_or_none "interval_seconds" members)
                (JInt DEFAULT_INTERVAL)) = ([], Ok iv) ->
  PyStr.strip raw = EmptyString
  \/ PyStr.strip (py_str py_repr (py_or (get_or_none "channelid" members)
                                        (JStr EmptyString))) = EmptyString ->
  result_of (load_record py_repr (JObj members)) = Raise CONFIG_ERROR.
Proof.
  intros Htok Hint Hblank. rewrite load_record_obj, Htok, Hint.
  unfold py_strip. rewrite bind_ret_l.
  change ([], Ok iv) with (ret (A := Z) iv). rewrite bind_ret_l. cbv zeta.
  set (ch0 := PyStr.strip (py_str py_repr _)) in *.
  set (tok0 := PyStr.strip raw) in *.
  destruct (truthy (JStr tok0)) eqn:Etok;
    destruct (PyStr.startswith "bot " (PyStr.lower tok0)) eqn:Epre;
    cbn [andb negb].
  - rewrite bind_ret_l, Etok. cbn [negb orb].
    apply truthy_str_true in Etok. destruct Hblank as [Hb | Hb];
      [contradiction |]. rewrite Hb. reflexivity.
  - unfold log_warning. rewrite bind_emit.
    cbn [trace_of result_of ret fst snd bind].
    change (truthy (JStr ("Bot " ++ tok0))) with true.
    apply truthy_str_true in Etok. destruct Hblank as [Hb | Hb];
      [contradiction |]. rewrite Hb. reflexivity.
  - rewrite bind_ret_l, Etok. reflexivity.
  - rewrite bind_ret_l, Etok. reflexivity.
Qed.

Lemma load_config_of_record (data cfg : json) :
  config_record data = ([], Ok cfg) ->
  load_config py_repr (Ok data) = load_record py_repr cfg.
Proof.
  intros H. unfold load_config, env_result.
  change ([], Ok data) with (ret (A := json) data).
  rewrite bind_ret_l, H.
  change ([], Ok cfg) with (ret (A := json) cfg).
  apply bind_ret_l.
Qed.

End Loader.

Section LoaderClaims.
Variable py_repr : json -> string.

Lemma config_record_document (members : list (string * json)) :
  config_record (config_document members) = ([], Ok (JObj members)).
Proof. reflexivity. Qed.

Lemma random_choice_In (r : nat) (seq : list json) :
  seq <> [] -> exists x, random_choice r seq = ([], Ok x) /\ In x seq.
Proof.
  destruct seq as [| y l]; [congruence |]. intros _.
  unfold random_choice, ret. eexists. split; [reflexivity |].
  apply nth_In. apply Nat.mod_upper_bound. discriminate.
Qed.

(** C1: whenever [load_config] returns, the credential is non-empty and
    carries the prefix "Bot " up to letter case; a trimmed token that
    already starts with the prefix in any letter case is returned as it is,
    and any other non-empty trimmed token gets "Bot " prepended. *)
Theorem load_config_credential_prefixed (file : file_read) t ch tok msgs iv :
  load_config py_repr file = (t, Ok (ch, tok, msgs, iv)) ->
  tok <> EmptyString
  /\ PyStr.startswith "bot " (PyStr.lower tok) = true
  /\ exists data members raw,
       file = Ok data
       /\ config_record data = ([], Ok (JObj members))
       /\ dict_get "token" members = Some (JStr raw)
       /\ PyStr.strip raw <> EmptyString
       /\ (PyStr.startswith "bot " (PyStr.lower (PyStr.strip raw)) = true ->
           tok = PyStr.strip raw)
       /\ (PyStr.startswith "bot " (PyStr.lower (PyStr.strip raw)) = false ->
           tok = "Bot " ++ PyStr.strip raw).
Proof.
  intros H. apply load_config_Ok_inv in H.
  destruct H as (data & cfg & Hfile & Hcfg & H).
  apply load_record_Ok_inv in H.
  destruct H as (members & raw & -> & Htok & Hne & Htokeq & _).
  assert (Hfield : dict_get "token" members = Some (JStr raw)).
  { unfold py_or, get_or_none in Htok.
    destruct (dict_get "token" members) as [v |].
    - destruct (truthy v); [congruence |].
      inversion Htok; subst raw. exfalso. apply Hne. reflexivity.
    - simpl in Htok. inversion Htok; subst raw. exfalso. apply Hne. reflexivity. }
  destruct (PyStr.startswith "bot " (PyStr.lower (PyStr.strip raw))) eqn:Epre;
    subst tok.
  - split; [assumption |]. split; [assumption |].
    exists data, members, raw. rewrite Epre.
    repeat split; auto; intros; discriminate.
  - split; [discriminate |]. split; [apply startswith_bot_prefixed |].
    exists data, members, raw. rewrite Epre.
    repeat split; auto; intros; discriminate.
Qed.

(** C6, as amended: whenever [load_config] returns, the interval is what
    [int()] makes of the [interval_seconds] field, or of 3600 when the field
    is missing or falsy; a non-zero integer is returned as it is, whatever
    its sign.  A field that [int()] rejects makes [load_config] raise. *)
Theorem load_config_interval (data : json) (members : list (string * json)) :
  config_record data = ([], Ok (JObj members)) ->
  (forall t ch tok msgs iv,
      load_config py_repr (Ok data) = (t, Ok (ch, tok, msgs, iv)) ->
      py_int (py_or (get_or_none "interval_seconds" members)
                    (JInt DEFAULT_INTERVAL)) = ([], Ok iv)
      /\ (truthy (get_or_none "interval_seconds" members) = false ->
          iv = 3600)
      /\ (forall z, get_or_none "interval_seconds" members = JInt z ->
                    z <> 0 -> iv = z))
  /\ (forall e,
         result_of (py_int (py_or (get_or_none "interval_seconds" members)
                                  (JInt DEFAULT_INTERVAL))) = Raise e ->
         exists e', result_of (load_config py_repr (Ok data)) = Raise e').
Proof.
  intros Hcfg. rewrite (load_config_of_record py_repr _ _ Hcfg). split.
  - intros t ch tok msgs iv H. apply load_record_Ok_inv in H.
    destruct H as (m & raw & Hm & _ & _ & _ & _ & _ & _ & _ & Hint).
    inversion Hm; subst m. split; [exact Hint |]. split.
    + intros Hf. rewrite (py_or_falsy _ _ Hf) in Hint.
      inversion Hint. reflexivity.
    + intros z Hz Hnz. rewrite Hz in Hint.
      rewrite py_or_truthy in Hint; [inversion Hint; reflexivity |].
      simpl. apply negb_true_iff. apply Z.eqb_neq. exact Hnz.
  - intros e He.
    destruct (load_record py_repr (JObj members)) as [t [r | e']] eqn:H.
    + destruct r as [[[ch tok] msgs] iv]. apply load_record_Ok_inv in H.
      destruct H as (m & raw & Hm & _ & _ & _ & _ & _ & _ & _ & Hint).
      inversion Hm; subst m. rewrite Hint in He. discriminate.
    + exists e'. reflexivity.
Qed.

(** C7, as amended: whenever [load_config] returns, the templates are the
    [messages] field as it is when that field is a non-empty list;
    otherwise the one-element list holding the [message] field when that
    field is truthy; otherwise the one-element list holding the built-in
    text, which covers a [message] that is absent, null or empty. *)
Theorem load_config_templates (file : file_read) t ch tok msgs iv :
  load_config py_repr file = (t, Ok (ch, tok, msgs, iv)) ->
  exists data members,
    file = Ok data
    /\ config_record data = ([], Ok (JObj members))
    /\ (forall x l, get_or_none "messages" members = JList (x :: l) ->
                    msgs = x :: l)
    /\ ((forall x l, get_or_none "messages" members <> JList (x :: l)) ->
        truthy (get_or_none "message" members) = true ->
        msgs = [get_or_none "message" members])
    /\ ((forall x l, get_or_none "messages" members <> JList (x :: l)) ->
        truthy (get_or_none "message" members) = false ->
        msgs = [JStr "Hello from VPS!"]).
Proof.
  intros H. apply load_config_Ok_inv in H.
  destruct H as (data & cfg & Hfile & Hcfg & H).
  apply load_record_Ok_inv in H.
  destruct H as (members & raw & -> & _ & _ & _ & _ & _ & _ & Hmsgs & _).
  exists data, members. split; [assumption |]. split; [assumption |].
  repeat split.
  - intros x l Hx. rewrite Hx in Hmsgs. exact Hmsgs.
  - intros Hno Ht. rewrite (py_or_truthy _ _ Ht) in Hmsgs.
    destruct (get_or_none "messages" members) as [| b | z | f | s | l | m];
      try exact Hmsgs.
    destruct l as [| x l]; [exact Hmsgs |]. exfalso. eapply Hno. reflexivity.
  - intros Hno Hf. rewrite (py_or_falsy _ _ Hf) in Hmsgs.
    destruct (get_or_none "messages" members) as [| b | z | f | s | l | m];
      try exact Hmsgs.
    destruct l as [| x l]; [exact Hmsgs |]. exfalso. eapply Hno. reflexivity.
Qed.

(** C10: whenever [load_config] returns, the templates are a non-empty
    list, so [random.choice] always finds an element; a [messages] field
    that is absent, an empty list or not a list is ignored in favour of the
    one-element fallback list. *)
Theorem load_config_templates_nonempty (file : file_read) t ch tok msgs iv :
  load_config py_repr file = (t, Ok (ch, tok, msgs, iv)) ->
  msgs <> []
  /\ (forall r, exists x, random_choice r msgs = ([], Ok x) /\ In x msgs)
  /\ exists data members,
       file = Ok data
       /\ config_record data = ([], Ok (JObj members))
       /\ ((forall x l, get_or_none "messages" members <> JList (x :: l)) ->
           msgs = [py_or (get_or_none "message" members)
                         (JStr DEFAULT_MESSAGE)]).
Proof.
  intros H. apply load_config_Ok_inv in H.
  destruct H as (data & cfg & Hfile & Hcfg & H).
  apply load_record_Ok_inv in H.
  destruct H as (members & raw & -> & _ & _ & _ & _ & _ & _ & Hmsgs & _).
  assert (Hne : msgs <> []).
  { subst msgs.
    destruct (get_or_none "messages" members) as [| b | z | f | s | l | m];
      try discriminate.
    destruct l; discriminate. }
  split; [exact Hne |]. split.
  - intros r. apply random_choice_In. exact Hne.
  - exists data, members. split; [assumption |]. split; [assumption |].
    intros Hno.
    destruct (get_or_none "messages" members) as [| b | z | f | s | l | m];
      try exact Hmsgs.
    destruct l as [| x l]; [exact Hmsgs |]. exfalso. eapply Hno. reflexivity.
Qed.

(** C9: a [channelid] whose value is falsy (0, false, the empty string,
    null) is handled exactly as an absent one: loading gives the same
    events and the same result as for the record without the field, and that
    result is always an exception, the ValueError of line 65 whenever the
    steps before the validation do not raise. *)
Theorem falsy_channelid_as_missing (data : json)
  (members : list (string * json)) (v : json) :
  config_record data = ([], Ok (JObj members)) ->
  dict_get "channelid" members = Some v ->
  truthy v = false ->
  dict_get "channelid" (dict_remove "channelid" members) = None
  /\ load_config py_repr (Ok data)
     = load_config py_repr
         (Ok (config_document (dict_remove "channelid" members)))
  /\ (exists e, result_of (load_config py_repr (Ok data)) = Raise e)
  /\ (forall raw iv,
         py_or (get_or_none "token" members) (JStr EmptyString) = JStr raw ->
         py_int (py_or (get_or_none "interval_seconds" members)
                       (JInt DEFAULT_INTERVAL)) = ([], Ok iv) ->
         result_of (load_config py_repr (Ok data)) = Raise CONFIG_ERROR).
Proof.
  intros Hcfg Hget Hfalsy.
  assert (Hblank : PyStr.strip
            (py_str py_repr (py_or (get_or_none "channelid" members)
                                   (JStr EmptyString))) = EmptyString).
  { unfold get_or_none. rewrite Hget, (py_or_falsy _ _ Hfalsy). reflexivity. }
  split; [apply dict_get_remove_same |].
  rewrite (load_config_of_record py_repr _ _ Hcfg).
  rewrite (load_config_of_record py_repr _ _
             (config_record_document (dict_remove "channelid" members))).
  split; [| split].
  - rewrite !load_record_obj. unfold get_or_none.
    rewrite dict_get_remove_same, Hget.
    rewrite !dict_get_remove_other by reflexivity.
    rewrite (py_or_falsy v _ Hfalsy). reflexivity.
  - destruct (load_record py_repr (JObj members)) as [t [r | e]] eqn:H.
    + exfalso. revert H. apply load_record_blank_not_Ok. right. right.
      exists v. unfold get_or_none in Hblank. rewrite Hget in Hblank. auto.
    + exists e. reflexivity.
  - intros raw iv Htok Hint.
    apply (load_record_blank_config_error py_repr members raw iv Htok Hint).
    right. exact Hblank.
Qed.

End LoaderClaims.

(** ** Sender *)

Section Sender.
Variable decode_ignore : list byte -> string.

Lemma body_head_firstn (resp_body : list byte) :
  body_head resp_body = firstn 300 resp_body
  /\ (List.length (body_head resp_body) <= 300)%nat.
Proof.
  unfold body_head. destruct resp_body as [| b l].
  - split; [reflexivity | simpl; lia].
  - split; [reflexivity | apply firstn_le_length].
Qed.

Lemma status_range (status : Z) :
  (199 <? status) && (status <? 300) = true <-> 200 <= status <= 299.
Proof.
  rewrite andb_true_iff, !Z.ltb_lt. lia.
Qed.

(** The closing [finally] block never raises and adds the one event. *)
Lemma close_swallowed (net : net_script) :
  try_except_all (emit EvClose ;;; env_raises (on_close net)) (ret tt)
  = ([EvClose], Ok tt).
Proof. destruct net as [rq gr rd [e |]]; reflexivity. Qed.

Ltac script_cases net :=
  destruct net as [[e1 |] [[status reason] | e2] [resp_body | e3] cl];
  cbn [on_request on_getresponse on_read on_close].

Local Ltac run_send :=
  unfold send_message; rewrite close_swallowed;
  unfold try_finally, try_except, log_info, log_error, log_exception,
    env_raises, env_result, emit, bind, ret, raise;
  cbn [on_request on_getresponse on_read on_close].

(** The one request of a call, whatever the network does. *)
Lemma send_message_requests (net : net_script) (channel_id token content : string) :
  requests (trace_of (send_message decode_ignore net channel_id token content))
  = [mk_request get_connection "POST" (messages_path channel_id)
       (dumps_message content) (get_headers token)].
Proof.
  script_cases net; run_send;
    repeat match goal with
           | |- context [is_Exception ?e] => destruct (is_Exception e)
           | |- context [(199 <? ?s) && (?s <? 300)] =>
               destruct ((199 <? s) && (s <? 300))
           end; reflexivity.
Qed.

(** A response was read: the outcome is decided by the status alone. *)
Lemma send_message_response (net : net_script) (channel_id token content : string)
  status reason resp_body :
  on_request net = None ->
  on_getresponse net = Ok (status, reason) ->
  on_read net = Ok resp_body ->
  send_message decode_ignore net channel_id token content
  = ([EvRequest (mk_request get_connection "POST" (messages_path channel_id)
                   (dumps_message content) (get_headers token));
      EvGetResponse; EvRead;
      EvLog (if (199 <? status) && (status <? 300)
             then mk_log INFO SENT_OK [] None
             else mk_log ERROR HTTP_ERROR_FMT
                    [ArgInt status; ArgStr reason;
                     ArgStr (decode_ignore (body_head resp_body))] None);
      EvClose], Ok tt).
Proof.
  intros H1 H2 H3. destruct net as [rq gr rd cl]. simpl in H1, H2, H3. subst.
  run_send. destruct ((199 <? status) && (status <? 300)); reflexivity.
Qed.

(** The network raised an [Exception]: it is logged and the call returns. *)
Lemma send_message_failure (net : net_script) (channel_id token content : string) e :
  net_failure net = Some e ->
  is_Exception e = true ->
  logs (trace_of (send_message decode_ignore net channel_id token content))
  = [mk_log ERROR SEND_EXC_FMT [ArgExn e] (Some e)]
  /\ result_of (send_message decode_ignore net channel_id token content) = Ok tt.
Proof.
  intros Hf He. unfold net_failure in Hf.
  script_cases net; cbn [on_request on_getresponse on_read] in Hf;
    inversion Hf; subst; run_send; rewrite He; split; reflexivity.
Qed.

(** Anything else than an [Exception] passes through, after the close. *)
Lemma send_message_interrupt (net : net_script) (channel_id token content : string) e :
  net_failure net = Some e ->
  is_Exception e = false ->
  result_of (send_message decode_ignore net channel_id token content) = Raise e.
Proof.
  intros Hf He. unfold net_failure in Hf.
  script_cases net; cbn [on_request on_getresponse on_read] in Hf;
    inversion Hf; subst; run_send; rewrite He; reflexivity.
Qed.

(** Whatever leaves [send_message] is not an [Exception]. *)
Lemma send_message_raise (net : net_script) (channel_id token content : string) e :
  result_of (send_message decode_ignore net channel_id token content) = Raise e ->
  is_Exception e = false /\ net_failure net = Some e.
Proof.
  intros H. destruct (net_failure net) as [e' |] eqn:Hf.
  - destruct (is_Exception e') eqn:He.
    + destruct (send_message_failure net channel_id token content e' Hf He)
        as [_ Hr].
      rewrite Hr in H. discriminate.
    + rewrite (send_message_interrupt net channel_id token content e' Hf He) in H.
      inversion H; subst. auto.
  - unfold net_failure in Hf.
    destruct (on_request net) eqn:H1; [discriminate |].
    destruct (on_getresponse net) as [[status reason] |] eqn:H2; [| discriminate].
    destruct (on_read net) as [resp_body |] eqn:H3; [| discriminate].
    rewrite (send_message_response net channel_id token content
               status reason resp_body H1 H2 H3) in H.
    discriminate.
Qed.

Lemma net_ordinary_failure (net : net_script) e :
  net_ordinary net = true -> net_failure net = Some e -> is_Exception e = true.
Proof.
  unfold net_ordinary, net_failure.
  script_cases net; cbn [raises_only_Exception]; intros H Hf;
    inversion Hf; subst;
    repeat (apply andb_true_iff in H; destruct H as [H ?]); assumption.
Qed.

Lemma send_message_returns (net : net_script) (channel_id token content : string) :
  net_ordinary net = true ->
  result_of (send_message decode_ignore net channel_id token content) = Ok tt.
Proof.
  intros Hord. destruct (net_failure net) as [e |] eqn:Hf.
  - apply (send_message_failure net channel_id token content e Hf).
    eapply net_ordinary_failure; eassumption.
  - unfold net_failure in Hf.
    destruct (on_request net) eqn:H1; [discriminate |].
    destruct (on_getresponse net) as [[status reason] |] eqn:H2; [| discriminate].
    destruct (on_read net) as [resp_body |] eqn:H3; [| discriminate].
    rewrite (send_message_response net channel_id token content
               status reason resp_body H1 H2 H3).
    reflexivity.
Qed.

End Sender.

(** ** Main loop *)

Lemma result_of_try_except {A} (body : M A) (handler : exn -> M A) :
  result_of (try_except body handler) =
  match result_of body with
  | Ok a => Ok a
  | Raise e => if is_Exception e then result_of (handler e) else Raise e
  end.
Proof.
  destruct body as [t [a | e]]; simpl; [reflexivity |].
  destruct (is_Exception e); [| reflexivity].
  destruct (handler e); reflexivity.
Qed.

Lemma trace_of_try_except {A} (body : M A) (handler : exn -> M A) :
  trace_of (try_except body handler) =
  match result_of body with
  | Ok _ => trace_of body
  | Raise e =>
      if is_Exception e then (trace_of body ++ trace_of (handler e))%list
      else trace_of body
  end.
Proof.
  destruct body as [t [a | e]]; simpl; [reflexivity |].
  destruct (is_Exception e); [| reflexivity].
  destruct (handler e); reflexivity.
Qed.

Lemma sleeps_app (t1 t2 : list event) :
  sleeps (t1 ++ t2) = (sleeps t1 ++ sleeps t2)%list.
Proof. unfold sleeps. apply flat_map_app. Qed.

Lemma requests_app (t1 t2 : list event) :
  requests (t1 ++ t2) = (requests t1 ++ requests t2)%list.
Proof. unfold requests. apply flat_map_app. Qed.

Lemma logs_app (t1 t2 : list event) :
  logs (t1 ++ t2) = (logs t1 ++ logs t2)%list.
Proof. unfold logs. apply flat_map_app. Qed.

Section Loop.
Variable py_repr : json -> string.
Variable decode_ignore : list byte -> string.

(** An exception leaves the suite of the [try] either from the choice or
    the rendering, and then it is an [Exception], or from the network
    through [send_message], and then it is not. *)
Lemma attempt_body_raise (env : tick_env) (channel_id token : string)
  (messages : list json) e :
  result_of (attempt_body decode_ignore env channel_id token messages) = Raise e ->
  is_Exception e = true
  \/ (is_Exception e = false /\ net_failure (net env) = Some e).
Proof.
  unfold attempt_body. rewrite result_of_bind.
  destruct messages as [| x l]; cbn [random_choice raise ret result_of snd].
  - intros H. inversion H. left. reflexivity.
  - rewrite result_of_bind.
    destruct (nth (draw env mod List.length (x :: l)) (x :: l) x)
      as [| b | z | f | s | l' | m];
      cbn [render_value raise ret result_of snd];
      try (intros H; inversion H; left; reflexivity).
    intros H. right.
    apply (send_message_raise decode_ignore (net env) channel_id token
             (render_message (clock env) s) e H).
Qed.

(** An [Exception] raised in the suite is logged and swallowed. *)
Lemma attempt_swallows (env : tick_env) (channel_id token : string)
  (messages : list json) e :
  result_of (attempt_body decode_ignore env channel_id token messages) = Raise e ->
  is_Exception e = true ->
  attempt decode_ignore env channel_id token messages
  = ((trace_of (attempt_body decode_ignore env channel_id token messages)
      ++ [EvLog (mk_log ERROR LOOP_EXC_FMT [ArgExn e] (Some e))])%list, Ok tt).
Proof.
  intros Hr He. unfold attempt.
  rewrite (surjective_M (try_except _ _)).
  rewrite result_of_try_except, trace_of_try_except, Hr, He. reflexivity.
Qed.

Lemma attempt_raise (env : tick_env) (channel_id token : string)
  (messages : list json) e :
  result_of (attempt decode_ignore env channel_id token messages) = Raise e ->
  is_Exception e = false /\ net_failure (net env) = Some e.
Proof.
  unfold attempt. rewrite result_of_try_except.
  destruct (result_of (attempt_body decode_ignore env channel_id token messages))
    as [[] | e'] eqn:Hb; [discriminate |].
  destruct (is_Exception e') eqn:He; [discriminate |].
  intros H. inversion H; subst.
  destruct (attempt_body_raise _ _ _ _ _ Hb) as [Hx | Hx]; [congruence | exact Hx].
Qed.

Lemma attempt_returns (env : tick_env) (channel_id token : string)
  (messages : list json) :
  net_ordinary (net env) = true ->
  result_of (attempt decode_ignore env channel_id token messages) = Ok tt.
Proof.
  intros Hord.
  destruct (result_of (attempt decode_ignore env channel_id token messages))
    as [[] | e] eqn:H; [reflexivity |].
  apply attempt_raise in H. destruct H as [He Hf].
  rewrite (net_ordinary_failure _ _ Hord Hf) in He. discriminate.
Qed.

Lemma sleep_in_range (interval : Z) :
  0 <= interval <= SLEEP_LIMIT ->
  (interval <? - SLEEP_LIMIT) || (SLEEP_LIMIT <? interval) = false
  /\ (interval <? 0) = false.
Proof.
  unfold SLEEP_LIMIT. intros Hi. split.
  - apply orb_false_iff. split; apply Z.ltb_ge; lia.
  - apply Z.ltb_ge. lia.
Qed.

Lemma sleep_returns (env : tick_env) (interval : Z) :
  0 <= interval <= SLEEP_LIMIT -> on_sleep env = None ->
  sleep env interval = ([EvSleep interval], Ok tt).
Proof.
  intros Hi Hs. unfold sleep. rewrite bind_emit.
  destruct (sleep_in_range interval Hi) as [H1 H2].
  rewrite H1, H2, Hs. reflexivity.
Qed.

Lemma sleeps_attempt (env : tick_env) (channel_id token : string)
  (messages : list json) :
  sleeps (trace_of (attempt decode_ignore env channel_id token messages)) = [].
Proof.
  assert (Hsend : forall c,
             sleeps (trace_of (send_message decode_ignore (net env)
                                 channel_id token c)) = []).
  { intros c. destruct (net env) as [[e1 |] [[status reason] | e2] [rb | e3] cl];
      unfold send_message; rewrite close_swallowed;
      unfold try_finally, try_except, log_info, log_error, log_exception,
        env_raises, env_result, emit, bind, ret, raise;
      cbn [on_request on_getresponse on_read on_close];
      repeat match goal with
             | |- context [is_Exception ?e] => destruct (is_Exception e)
             | |- context [(199 <? ?s) && (?s <? 300)] =>
                 destruct ((199 <? s) && (s <? 300))
             end; reflexivity. }
  assert (Hbody : sleeps (trace_of (attempt_body decode_ignore env channel_id
                                      token messages)) = []).
  { unfold attempt_body. rewrite trace_of_bind.
    destruct messages as [| x l]; cbn [random_choice raise ret result_of
                                         trace_of fst snd]; [reflexivity |].
    rewrite trace_of_bind.
    destruct (nth (draw env mod List.length (x :: l)) (x :: l) x);
      cbn [render_value raise ret result_of trace_of fst snd app];
      try reflexivity.
    apply Hsend. }
  unfold attempt. rewrite trace_of_try_except.
  destruct (result_of (attempt_body decode_ignore env channel_id token messages));
    [exact Hbody |].
  destruct (is_Exception e); [| exact Hbody].
  rewrite sleeps_app, Hbody. reflexivity.
Qed.

(** With ordinary failures and undisturbed sleeps, one iteration reaches
    its end. *)
Lemma tick_returns (env : tick_env) (channel_id token : string)
  (messages : list json) (interval : Z) :
  net_ordinary (net env) = true -> 0 <= interval <= SLEEP_LIMIT ->
  on_sleep env = None ->
  result_of (tick decode_ignore env channel_id token messages interval) = Ok tt
  /\ sleeps (trace_of (tick decode_ignore env channel_id token messages interval))
     = [interval].
Proof.
  intros Hord Hi Hs. unfold tick.
  rewrite result_of_bind, trace_of_bind, (attempt_returns _ _ _ _ Hord).
  rewrite (sleep_returns env interval Hi Hs), sleeps_app, sleeps_attempt.
  split; reflexivity.
Qed.

Lemma run_loop_returns (envs : list tick_env) (channel_id token : string)
  (messages : list json) (interval : Z) :
  Forall (fun env => net_ordinary (net env) = true) envs ->
  0 <= interval <= SLEEP_LIMIT ->
  Forall (fun env => on_sleep env = None) envs ->
  result_of (run_loop decode_ignore envs channel_id token messages interval) = Ok tt
  /\ sleeps (trace_of (run_loop decode_ignore envs channel_id token messages
                         interval))
     = repeat interval (List.length envs).
Proof.
  intros Hord Hi Hs. induction envs as [| env rest IH]; [split; reflexivity |].
  inversion Hord; subst. inversion Hs; subst.
  destruct (IH H2 H4) as [IHr IHt].
  destruct (tick_returns env channel_id token messages interval H1 Hi H3)
    as [Hr Ht].
  cbn [run_loop]. rewrite result_of_bind, trace_of_bind, Hr, sleeps_app, Ht, IHt.
  split; [exact IHr | reflexivity].
Qed.

(** What can end the loop: a [time.sleep] that raises, or something that
    is not an [Exception] coming from the network. *)
Lemma run_loop_raise (envs : list tick_env) (channel_id token : string)
  (messages : list json) (interval : Z) e :
  result_of (run_loop decode_ignore envs channel_id token messages interval)
  = Raise e ->
  exists env, In env envs
    /\ (result_of (sleep env interval) = Raise e
        \/ (is_Exception e = false /\ net_failure (net env) = Some e)).
Proof.
  induction envs as [| env rest IH]; [discriminate |].
  cbn [run_loop]. rewrite result_of_bind. unfold tick at 1.
  rewrite result_of_bind.
  destruct (result_of (attempt decode_ignore env channel_id token messages))
    as [[] | e'] eqn:Ha.
  - destruct (result_of (sleep env interval)) as [[] | e'] eqn:Hsl.
    + intros H. destruct (IH H) as (env' & Hin & Hc).
      exists env'. split; [right; exact Hin | exact Hc].
    + intros H. inversion H; subst. exists env. split; [left; reflexivity |].
      left. exact Hsl.
  - intros H. inversion H; subst. apply attempt_raise in Ha.
    exists env. split; [left; reflexivity | right; exact Ha].
Qed.

(** A failed load ends [main] at once, with the loader's events only. *)
Lemma main_load_failure (file : file_read) (envs : list tick_env) e :
  result_of (load_config py_repr file) = Raise e ->
  main py_repr decode_ignore file envs
  = (trace_of (load_config py_repr file), Raise e).
Proof.
  intros H. unfold main.
  destruct (load_config py_repr file) as [t [r | e']]; simpl in *; congruence.
Qed.

End Loop.

(** ** Renderer *)

Section Replace.
Variables old new : string.

Lemma startswith_app (p x y : string) :
  PyStr.startswith p x = true -> PyStr.startswith p (x ++ y) = true.
Proof.
  revert x. induction p as [| a p IH]; intros x H; [reflexivity |].
  destruct x as [| b x]; [discriminate |].
  cbn [PyStr.startswith append] in *.
  apply andb_true_iff in H. destruct H as [H1 H2].
  rewrite H1, (IH _ H2). reflexivity.
Qed.

Lemma startswith_drop (p s : string) :
  PyStr.startswith p s = true -> s = p ++ drop (String.length p) s.
Proof.
  revert s. induction p as [| a p IH]; intros s H; [reflexivity |].
  destruct s as [| b s]; [discriminate |].
  cbn [PyStr.startswith] in H. apply andb_true_iff in H. destruct H as [H1 H2].
  apply Ascii.eqb_eq in H1. subst b.
  cbn [String.length drop append]. f_equal. apply IH. exact H2.
Qed.

Lemma drop_empty (k : nat) : drop k EmptyString = EmptyString.
Proof. destruct k; reflexivity. Qed.

Lemma split_from_cons (k : nat) (s : string) :
  exists p ps y, split_from old k s = p :: ps /\ drop k s = p ++ y.
Proof.
  revert k. induction s as [| c r IH]; intros k.
  - exists EmptyString, [], EmptyString. rewrite drop_empty. auto.
  - destruct k as [| k]; cbn [split_from drop].
    + destruct (PyStr.startswith old (String c r)).
      * exists EmptyString, (split_from old (Nat.pred (String.length old)) r),
          (String c r). auto.
      * destruct (IH O) as (p & ps & y & Hs & Hd). rewrite Hs.
        exists (String c p), ps, y. cbn [drop] in Hd. rewrite Hd at 1. auto.
    + apply IH.
Qed.

Lemma join_cons_char (c : ascii) (p : string) (ps : list string) :
  PyStr.join new (String c p :: ps) = String c (PyStr.join new (p :: ps)).
Proof. destruct ps; reflexivity. Qed.

Lemma join_cons_cons (sep p q : string) (ps : list string) :
  PyStr.join sep (p :: q :: ps) = p ++ sep ++ PyStr.join sep (q :: ps).
Proof. reflexivity. Qed.

(** [s.replace(old, new)] is [new.join(s.split(old))]. *)
Lemma replace_from_join_split (k : nat) (s : string) :
  PyStr.replace_from old new k s = PyStr.join new (split_from old k s).
Proof.
  revert k. induction s as [| c r IH]; intros k; [reflexivity |].
  destruct k as [| k]; cbn [PyStr.replace_from split_from]; [| apply IH].
  destruct (PyStr.startswith old (String c r)).
  - rewrite IH.
    destruct (split_from_cons (Nat.pred (String.length old)) r)
      as (p & ps & y & Hs & _).
    rewrite Hs. reflexivity.
  - rewrite IH. destruct (split_from_cons O r) as (p & ps & y & Hs & _).
    rewrite Hs, join_cons_char. reflexivity.
Qed.

(** Joining the pieces with [old] gives the text back. *)
Lemma join_split_from (k : nat) (s : string) :
  old <> EmptyString ->
  PyStr.join old (split_from old k s) = drop k s.
Proof.
  intros Hold. revert k. induction s as [| c r IH]; intros k.
  - rewrite drop_empty. reflexivity.
  - destruct k as [| k]; cbn [split_from drop]; [| apply IH].
    destruct (PyStr.startswith old (String c r)) eqn:E.
    + destruct (split_from_cons (Nat.pred (String.length old)) r)
        as (p & ps & y & Hs & _).
      pose proof (IH (Nat.pred (String.length old))) as IHk.
      rewrite Hs in *. rewrite join_cons_cons, IHk.
      apply startswith_drop in E.
      destruct old as [| a o]; [congruence |].
      cbn [String.length Nat.pred drop append] in *. symmetry. exact E.
    + pose proof (IH O) as IH0.
      destruct (split_from_cons O r) as (p & ps & y & Hs & _).
      rewrite Hs in *. clear IH.
      destruct ps as [| q ps].
      * cbn [PyStr.join drop] in *. congruence.
      * rewrite join_cons_cons in *. cbn [drop append] in *. congruence.
Qed.

(** No piece contains [old]. *)
Lemma split_from_free (k : nat) (s : string) :
  old <> EmptyString ->
  Forall (fun p => PyStr.contains old p = false) (split_from old k s).
Proof.
  intros Hold.
  assert (Hempty : PyStr.contains old EmptyString = false).
  { destruct old; [congruence | reflexivity]. }
  revert k. induction s as [| c r IH]; intros k.
  - constructor; [exact Hempty | constructor].
  - destruct k as [| k]; cbn [split_from]; [| apply IH].
    destruct (PyStr.startswith old (String c r)) eqn:E.
    + constructor; [exact Hempty | apply IH].
    + pose proof (IH O) as IH0.
      destruct (split_from_cons O r) as (p & ps & y & Hs & Hd).
      rewrite Hs in *. inversion IH0; subst. constructor; [| assumption].
      cbn [PyStr.contains]. rewrite H1, orb_false_r.
      destruct (PyStr.startswith old (String c p)) eqn:Ep; [| reflexivity].
      apply (startswith_app _ _ y) in Ep. cbn [drop] in Hd.
      cbn [append] in Ep. rewrite <- Hd, E in Ep. discriminate.
Qed.

(** A text without [old] is left as it is. *)
Lemma replace_from_free (s : string) :
  PyStr.contains old s = false -> PyStr.replace_from old new O s = s.
Proof.
  induction s as [| c r IH]; [reflexivity |].
  cbn [PyStr.contains PyStr.replace_from]. intros H.
  apply orb_false_iff in H. destruct H as [H1 H2].
  rewrite H1, (IH H2). reflexivity.
Qed.

End Replace.

(** An occurrence of the placeholder cannot start inside a text that is
    followed by the placeholder, unless it lies in that text entirely: no
    later character of "{now}" is an opening brace. *)
Lemma placeholder_no_overlap (x b : string) :
  x <> EmptyString ->
  PyStr.startswith PLACEHOLDER (x ++ PLACEHOLDER ++ b) = true ->
  PyStr.startswith PLACEHOLDER x = true.
Proof.
  unfold PLACEHOLDER. intros Hx H.
  destruct x as [| c1 [| c2 [| c3 [| c4 [| c5 x]]]]]; [congruence | | | | |];
    cbn [PyStr.startswith append] in *;
    repeat match type of H with
           | context [Ascii.eqb ?a ?c] =>
               is_var c; destruct (Ascii.eqb a c); cbn [andb] in H
           end;
    try discriminate; reflexivity.
Qed.

Lemma replace_placeholder_step (new a b : string) :
  PyStr.contains PLACEHOLDER a = false ->
  PyStr.replace PLACEHOLDER new (a ++ PLACEHOLDER ++ b)
  = a ++ new ++ PyStr.replace PLACEHOLDER new b.
Proof.
  unfold PyStr.replace. induction a as [| c a IH]; intros Hfree.
  - reflexivity.
  - cbn [PyStr.contains] in Hfree. apply orb_false_iff in Hfree.
    destruct Hfree as [H1 H2].
    cbn [append PyStr.replace_from].
    destruct (PyStr.startswith PLACEHOLDER (String c (a ++ PLACEHOLDER ++ b)))
      eqn:E.
    + apply (placeholder_no_overlap (String c a) b) in E; [| discriminate].
      congruence.
    + rewrite (IH H2). reflexivity.
Qed.

(** Every occurrence is replaced: a text cut at its occurrences of the
    placeholder is rendered by putting the timestamp where the
    placeholder was. *)
Lemma replace_placeholder_join (new : string) (pieces : list string) :
  Forall (fun p => PyStr.contains PLACEHOLDER p = false) pieces ->
  PyStr.replace PLACEHOLDER new (PyStr.join PLACEHOLDER pieces)
  = PyStr.join new pieces.
Proof.
  induction pieces as [| p rest IH]; intros Hfree; [reflexivity |].
  inversion Hfree; subst. destruct rest as [| q rest].
  - apply replace_from_free. assumption.
  - rewrite !join_cons_cons, replace_placeholder_step by assumption.
    rewrite (IH H2). reflexivity.
Qed.

(** *** The timestamp *)

Lemma matches_shape_app (a b x y : string) :
  matches_shape a x = true -> matches_shape b y = true ->
  matches_shape (a ++ b) (x ++ y) = true.
Proof.
  revert x. induction a as [| k a IH]; intros x Hx Hy.
  - destruct x; [exact Hy | discriminate].
  - destruct x as [| c x]; [discriminate |].
    cbn [matches_shape append] in *.
    apply andb_true_iff in Hx. destruct Hx as [H1 H2].
    rewrite H1, (IH _ H2 Hy). reflexivity.
Qed.

Lemma range_check (f : Z -> bool) (lo hi : Z) :
  forallb (fun k => f (lo + Z.of_nat k)) (seq 0 (Z.to_nat (hi - lo + 1))) = true ->
  forall n, lo <= n <= hi -> f n = true.
Proof.
  intros H n Hn. rewrite forallb_forall in H.
  replace n with (lo + Z.of_nat (Z.to_nat (n - lo))) by lia.
  apply H. apply in_seq. lia.
Qed.

Lemma two_digits (n : Z) :
  0 <= n <= 99 -> matches_shape "dd" (zero_pad 2 n) = true.
Proof.
  apply (range_check (fun n => matches_shape "dd" (zero_pad 2 n)) 0 99).
  vm_compute. reflexivity.
Qed.

Lemma four_digits (n : Z) :
  1000 <= n <= 9999 -> matches_shape "dddd" (zero_pad 4 n) = true.
Proof.
  apply (range_check (fun n => matches_shape "dddd" (zero_pad 4 n)) 1000 9999).
  vm_compute. reflexivity.
Qed.

Lemma strftime_shape (d : datetime) :
  valid_datetime d -> matches_shape TIMESTAMP_SHAPE (strftime d) = true.
Proof.
  intros (Hy & Hm & Hd & Hh & Hmi & Hs). unfold strftime.
  change TIMESTAMP_SHAPE
    with ("dddd" ++ "-" ++ "dd" ++ "-" ++ "dd" ++ " " ++ "dd" ++ ":"
          ++ "dd" ++ ":" ++ "dd").
  repeat (apply matches_shape_app;
          [first [apply four_digits; lia | apply two_digits; lia | reflexivity] |]).
  apply two_digits. lia.
Qed.

(** *** The timestamp read back *)

Lemma read_two_digits (n : Z) (rest : string) :
  0 <= n <= 99 ->
  read_digits 2 0 (zero_pad 2 n ++ rest) = Some (n, rest).
Proof.
  intros Hn.
  pose (check := fun n => match zero_pad 2 n with
                          | String a (String b EmptyString) =>
                              PyStr.is_digit a && PyStr.is_digit b
                              && (10 * (10 * 0 + PyStr.digit_val a)
                                  + PyStr.digit_val b =? n)
                          | _ => false
                          end).
  assert (H : check n = true)
    by (apply (range_check check 0 99); [vm_compute; reflexivity | exact Hn]).
  unfold check in H. clear check.
  destruct (zero_pad 2 n) as [| a [| b [| c r]]]; try discriminate.
  apply andb_true_iff in H. destruct H as [H Hv].
  apply andb_true_iff in H. destruct H as [Ha Hb].
  apply Z.eqb_eq in Hv.
  cbn [append read_digits]. rewrite Ha, Hb, Hv. reflexivity.
Qed.

Lemma read_four_digits (n : Z) (rest : string) :
  1000 <= n <= 9999 ->
  read_digits 4 0 (zero_pad 4 n ++ rest) = Some (n, rest).
Proof.
  intros Hn.
  pose (check := fun n => match zero_pad 4 n with
                          | String a (String b (String c (String d EmptyString))) =>
                              PyStr.is_digit a && PyStr.is_digit b
                              && PyStr.is_digit c && PyStr.is_digit d
                              && (10 * (10 * (10 * (10 * 0 + PyStr.digit_val a)
                                              + PyStr.digit_val b)
                                        + PyStr.digit_val c)
                                  + PyStr.digit_val d =? n)
                          | _ => false
                          end).
  assert (H : check n = true)
    by (apply (range_check check 1000 9999); [vm_compute; reflexivity | exact Hn]).
  unfold check in H. clear check.
  destruct (zero_pad 4 n) as [| a [| b [| c [| d [| x r]]]]]; try discriminate.
  apply andb_true_iff in H. destruct H as [H Hv].
  apply andb_true_iff in H. destruct H as [H Hd].
  apply andb_true_iff in H. destruct H as [H Hc].
  apply andb_true_iff in H. destruct H as [Ha Hb].
  apply Z.eqb_eq in Hv.
  cbn [append read_digits]. rewrite Ha, Hb, Hc, Hd, Hv. reflexivity.
Qed.

Lemma expect_separator (c : ascii) (rest : string) :
  expect c (String c EmptyString ++ rest) = Some rest.
Proof. cbn [append expect]. rewrite Ascii.eqb_refl. reflexivity. Qed.

Lemma string_append_empty (s : string) : s ++ EmptyString = s.
Proof.
  induction s as [| c s IH]; [reflexivity |]. cbn [append]. rewrite IH.
  reflexivity.
Qed.

(** The timestamp holds the six fields of the clock reading, each in its
    place: reading it back gives the reading. *)
Lemma strftime_read_back (d : datetime) :
  valid_datetime d -> read_timestamp (strftime d) = Some d.
Proof.
  intros (Hy & Hm & Hd & Hh & Hmi & Hs).
  unfold strftime, read_timestamp.
  rewrite <- (string_append_empty (zero_pad 2 (dt_second d))).
  assert (Hm' : 0 <= dt_month d <= 99) by lia.
  assert (Hd' : 0 <= dt_day d <= 99) by lia.
  assert (Hh' : 0 <= dt_hour d <= 99) by lia.
  assert (Hmi' : 0 <= dt_minute d <= 99) by lia.
  assert (Hs' : 0 <= dt_second d <= 99) by lia.
  rewrite (read_four_digits _ _ Hy). cbn [and_then]. rewrite expect_separator.
  cbn [and_then].
  rewrite (read_two_digits _ _ Hm'). cbn [and_then]. rewrite expect_separator.
  cbn [and_then].
  rewrite (read_two_digits _ _ Hd'). cbn [and_then]. rewrite expect_separator.
  cbn [and_then].
  rewrite (read_two_digits _ _ Hh'). cbn [and_then]. rewrite expect_separator.
  cbn [and_then].
  rewrite (read_two_digits _ _ Hmi'). cbn [and_then]. rewrite expect_separator.
  cbn [and_then].
  rewrite (read_two_digits _ _ Hs'). cbn [and_then].
  destruct d; reflexivity.
Qed.

(** *** Nothing is left to replace *)

Lemma plain_no_straddle (x : string) (d : ascii) (y : string) :
  plain d = true ->
  PyStr.startswith PLACEHOLDER (x ++ String d y) = true ->
  PyStr.startswith PLACEHOLDER x = true.
Proof.
  unfold PLACEHOLDER, plain. intros Hd H. apply negb_true_iff in Hd.
  repeat (apply orb_false_iff in Hd; destruct Hd as [Hd ?]).
  destruct x as [| c1 [| c2 [| c3 [| c4 [| c5 x]]]]];
    cbn [PyStr.startswith append] in *;
    repeat match type of H with
           | context [Ascii.eqb ?a ?c] =>
               is_var c; destruct (Ascii.eqb a c) eqn:?; cbn [andb] in H
           end;
    try discriminate; try congruence; reflexivity.
Qed.

Lemma contains_after_free (a : string) (d : ascii) (y : string) :
  plain d = true ->
  PyStr.contains PLACEHOLDER a = false ->
  PyStr.contains PLACEHOLDER (String d y) = false ->
  PyStr.contains PLACEHOLDER (a ++ String d y) = false.
Proof.
  intros Hd Ha Hy. induction a as [| c a IH]; [exact Hy |].
  cbn [PyStr.contains] in Ha. apply orb_false_iff in Ha. destruct Ha as [H1 H2].
  cbn [append PyStr.contains]. rewrite (IH H2), orb_false_r.
  destruct (PyStr.startswith PLACEHOLDER (String c (a ++ String d y))) eqn:E;
    [| reflexivity].
  apply (plain_no_straddle (String c a) d y Hd) in E. congruence.
Qed.

Lemma contains_plain_prefix (ts b : string) :
  all_chars plain ts = true ->
  PyStr.contains PLACEHOLDER b = false ->
  PyStr.contains PLACEHOLDER (ts ++ b) = false.
Proof.
  intros Hts Hb. induction ts as [| d ts IH]; [exact Hb |].
  cbn [all_chars] in Hts. apply andb_true_iff in Hts. destruct Hts as [Hd Hts].
  cbn [append PyStr.contains]. rewrite (IH Hts), orb_false_r.
  unfold plain in Hd. apply negb_true_iff in Hd.
  repeat (apply orb_false_iff in Hd; destruct Hd as [Hd ?]).
  unfold PLACEHOLDER. cbn [PyStr.startswith]. rewrite Hd. reflexivity.
Qed.

Lemma join_plain_free (ts : string) (pieces : list string) :
  ts <> EmptyString ->
  all_chars plain ts = true ->
  Forall (fun p => PyStr.contains PLACEHOLDER p = false) pieces ->
  PyStr.contains PLACEHOLDER (PyStr.join ts pieces) = false.
Proof.
  intros Hne Hts Hfree. induction pieces as [| p rest IH]; [reflexivity |].
  inversion Hfree; subst. destruct rest as [| q rest]; [assumption |].
  rewrite join_cons_cons.
  pose proof (contains_plain_prefix ts _ Hts (IH H2)) as Hy.
  destruct ts as [| d ts']; [congruence |].
  cbn [all_chars] in Hts. apply andb_true_iff in Hts. destruct Hts as [Hd _].
  cbn [append] in *. apply contains_after_free; assumption.
Qed.

Lemma digit_plain (c : ascii) : PyStr.is_digit c = true -> plain c = true.
Proof.
  destruct c as [[] [] [] [] [] [] [] []]; intros H;
    first [reflexivity | discriminate H].
Qed.

Lemma shape_all_chars (P : ascii -> bool) (shape s : string) :
  (forall c, PyStr.is_digit c = true -> P c = true) ->
  all_chars (fun k => Ascii.eqb k "d" || P k) shape = true ->
  matches_shape shape s = true ->
  all_chars P s = true.
Proof.
  intros Hdig. revert s. induction shape as [| k shape IH]; intros s Hshape Hm.
  - destruct s; [reflexivity | discriminate].
  - destruct s as [| c s]; [discriminate |].
    cbn [all_chars matches_shape] in *.
    apply andb_true_iff in Hshape. destruct Hshape as [Hk Hshape].
    apply andb_true_iff in Hm. destruct Hm as [Hc Hm].
    rewrite (IH s Hshape Hm), andb_true_r.
    destruct (Ascii.eqb k "d").
    + apply Hdig. exact Hc.
    + apply Ascii.eqb_eq in Hc. subst c. exact Hk.
Qed.

Lemma strftime_plain (d : datetime) :
  valid_datetime d ->
  strftime d <> EmptyString /\ all_chars plain (strftime d) = true.
Proof.
  intros Hv. apply strftime_shape in Hv. split.
  - intros E. rewrite E in Hv. discriminate.
  - apply (shape_all_chars plain TIMESTAMP_SHAPE _ digit_plain);
      [reflexivity | exact Hv].
Qed.

(** C5: [render_message] is a function of the template and the clock
    reading; it puts the timestamp, of the shape YYYY-MM-DD HH:MM:SS and
    holding the year, month, day, hour, minute and second of that reading,
    in the place of every occurrence of "{now}" and leaves all other text,
    so that no "{now}" remains and a template without "{now}" comes back
    unchanged. *)
Theorem render_message_replaces_placeholder (clock : datetime) (template : string) :
  (render_message clock template
   = PyStr.join (strftime clock) (split PLACEHOLDER template)
   /\ PyStr.join PLACEHOLDER (split PLACEHOLDER template) = template
   /\ Forall (fun p => PyStr.contains PLACEHOLDER p = false)
        (split PLACEHOLDER template))
  /\ (forall pieces,
         Forall (fun p => PyStr.contains PLACEHOLDER p = false) pieces ->
         render_message clock (PyStr.join PLACEHOLDER pieces)
         = PyStr.join (strftime clock) pieces)
  /\ (PyStr.contains PLACEHOLDER template = false ->
      render_message clock template = template)
  /\ (valid_datetime clock ->
      matches_shape TIMESTAMP_SHAPE (strftime clock) = true
      /\ PyStr.contains PLACEHOLDER (render_message clock template) = false
      /\ read_timestamp (strftime clock) = Some clock).
Proof.
  assert (Hne : PLACEHOLDER <> EmptyString) by discriminate.
  unfold render_message, split. repeat split.
  - apply replace_from_join_split.
  - apply (join_split_from PLACEHOLDER O template Hne).
  - apply (split_from_free PLACEHOLDER O template Hne).
  - intros pieces Hfree. apply replace_placeholder_join. exact Hfree.
  - apply replace_from_free.
  - apply strftime_shape. assumption.
  - unfold PyStr.replace. rewrite replace_from_join_split.
    destruct (strftime_plain clock) as [Hts Hplain]; [assumption |].
    apply join_plain_free; [exact Hts | exact Hplain |].
    apply (split_from_free PLACEHOLDER O template Hne).
  - apply strftime_read_back. assumption.
Qed.

(** ** The request body *)

Lemma json_unescape_char (c : ascii) (rest : string) :
  json_unescape (json_escape_char c ++ rest)
  = option_map (String c) (json_unescape rest).
Proof.
  destruct c as [[] [] [] [] [] [] [] []]; reflexivity.
Qed.

Lemma json_escape_char_printable (c : ascii) :
  all_chars is_printable_ascii (json_escape_char c) = true.
Proof.
  destruct c as [[] [] [] [] [] [] [] []]; reflexivity.
Qed.

Lemma all_chars_app (f : ascii -> bool) (a b : string) :
  all_chars f (a ++ b) = all_chars f a && all_chars f b.
Proof.
  induction a as [| c a IH]; [reflexivity |].
  cbn [append all_chars]. rewrite IH. apply andb_assoc.
Qed.

(** What [json_escape] writes is printable ASCII and reads back as the
    text it was given. *)
Lemma json_escape_roundtrip (s : string) :
  json_unescape (json_escape s) = Some s
  /\ all_chars is_printable_ascii (json_escape s) = true.
Proof.
  induction s as [| c r [IH1 IH2]]; [split; reflexivity |].
  cbn [json_escape]. split.
  - rewrite json_unescape_char, IH1. reflexivity.
  - rewrite all_chars_app, json_escape_char_printable, IH2. reflexivity.
Qed.

(** ** The program as a whole *)

Section Program.
Variable py_repr : json -> string.
Variable decode_ignore : list byte -> string.

(** The loader only ever logs its warning. *)
Lemma load_record_trace (cfg : json) :
  trace_of (load_record py_repr cfg) = []
  \/ trace_of (load_record py_repr cfg)
     = [EvLog (mk_log WARNING PREFIX_WARNING [] None)].
Proof.
  destruct cfg as [| b | z | f | s | l | members]; try (left; reflexivity).
  rewrite load_record_obj.
  destruct (py_or (get_or_none "token" members) (JStr EmptyString))
    as [| b | z | f | raw | l | m]; try (left; reflexivity).
  unfold py_strip. rewrite bind_ret_l.
  pose proof (trace_of_py_int (py_or (get_or_none "interval_seconds" members)
                                     (JInt DEFAULT_INTERVAL))) as Hti.
  destruct (py_int _) as [ti [iv | e]]; simpl in Hti; subst ti;
    [| left; reflexivity].
  change ([], Ok iv) with (ret (A := Z) iv). rewrite bind_ret_l. cbv zeta.
  set (ch0 := PyStr.strip (py_str py_repr _)).
  set (tok0 := PyStr.strip raw).
  destruct (truthy (JStr tok0)) eqn:Etok;
    destruct (PyStr.startswith "bot " (PyStr.lower tok0)) eqn:Epre;
    cbn [andb negb].
  - rewrite bind_ret_l. left.
    destruct (negb (truthy (JStr tok0)) || negb (truthy (JStr ch0)));
      reflexivity.
  - unfold log_warning. rewrite bind_emit.
    cbn [trace_of result_of ret fst snd bind]. right.
    destruct (negb (truthy (JStr ("Bot " ++ tok0))) || negb (truthy (JStr ch0)));
      reflexivity.
  - rewrite bind_ret_l, Etok. left. reflexivity.
  - rewrite bind_ret_l, Etok. left. reflexivity.
Qed.

(** C2: when the token or the channel id is missing, or empty once
    trimmed, [load_config] raises instead of returning; the exception is the
    ValueError of line 65 whenever the steps before the validation do not
    raise first; and [main] ends with that exception before its loop: no
    request is sent and no sleep is begun. *)
Theorem load_config_missing_required_fails (data : json)
  (members : list (string * json)) (envs : list tick_env) :
  config_record data = ([], Ok (JObj members)) ->
  token_missing_or_blank members \/ channelid_missing_or_blank py_repr members ->
  (exists e,
      result_of (load_config py_repr (Ok data)) = Raise e
      /\ main py_repr decode_ignore (Ok data) envs
         = (trace_of (load_config py_repr (Ok data)), Raise e)
      /\ requests (trace_of (main py_repr decode_ignore (Ok data) envs)) = []
      /\ sleeps (trace_of (main py_repr decode_ignore (Ok data) envs)) = [])
  /\ (forall raw iv,
         py_or (get_or_none "token" members) (JStr EmptyString) = JStr raw ->
         py_int (py_or (get_or_none "interval_seconds" members)
                       (JInt DEFAULT_INTERVAL)) = ([], Ok iv) ->
         result_of (load_config py_repr (Ok data)) = Raise CONFIG_ERROR).
Proof.
  intros Hcfg Hblank. split.
  - destruct (result_of (load_config py_repr (Ok data))) as [r | e] eqn:Hr.
    + exfalso. rewrite (load_config_of_record py_repr _ _ Hcfg) in Hr.
      apply (load_record_blank_not_Ok py_repr members
               (trace_of (load_record py_repr (JObj members))) r Hblank).
      rewrite <- Hr. apply surjective_M.
    + exists e. split; [reflexivity |].
      rewrite (main_load_failure py_repr decode_ignore _ envs e Hr).
      split; [reflexivity |]. cbn [trace_of fst].
      rewrite (load_config_of_record py_repr _ _ Hcfg).
      destruct (load_record_trace (JObj members)) as [Ht | Ht]; rewrite Ht;
        split; reflexivity.
  - intros raw iv Htok Hint.
    rewrite (load_config_of_record py_repr _ _ Hcfg).
    apply (load_record_blank_config_error py_repr members raw iv Htok Hint).
    destruct Hblank as [Hb | Hb].
    + left. apply token_blank_processed in Hb.
      destruct Hb as (raw' & Hr & Hs). rewrite Hr in Htok.
      inversion Htok; subst. exact Hs.
    + right. apply channelid_blank_processed. exact Hb.
Qed.

(** C3: no [Exception] ever leaves [send_message]: one raised while
    connecting, sending or reading is logged and the call returns.  No
    [Exception] leaves the [try] statement of an iteration either: one
    raised by the choice, the rendering or the sending is logged and
    swallowed.  So whenever the loop ends, the exception came from
    [time.sleep] or is not an [Exception] at all (an interrupt), never from
    a failed send; and with ordinary failures only, an interval that
    [time.sleep] accepts (from 0 to 9223372036 seconds) and undisturbed
    sleeps, every iteration is followed by the next. *)
Theorem failures_never_stop_the_loop (envs : list tick_env)
  (channel_id token : string) (messages : list json) (interval : Z) :
  (forall script content e,
      result_of (send_message decode_ignore script channel_id token content)
      = Raise e ->
      is_Exception e = false)
  /\ (forall script content e,
        net_failure script = Some e -> is_Exception e = true ->
        logs (trace_of (send_message decode_ignore script channel_id token
                          content))
        = [mk_log ERROR SEND_EXC_FMT [ArgExn e] (Some e)]
        /\ result_of (send_message decode_ignore script channel_id token content)
           = Ok tt)
  /\ (forall env e,
        result_of (attempt decode_ignore env channel_id token messages)
        = Raise e ->
        is_Exception e = false)
  /\ (forall env e,
        result_of (attempt_body decode_ignore env channel_id token messages)
        = Raise e ->
        is_Exception e = true ->
        attempt decode_ignore env channel_id token messages
        = ((trace_of (attempt_body decode_ignore env channel_id token messages)
            ++ [EvLog (mk_log ERROR LOOP_EXC_FMT [ArgExn e] (Some e))])%list,
           Ok tt))
  /\ (forall e,
        result_of (run_loop decode_ignore envs channel_id token messages interval)
        = Raise e ->
        exists env, In env envs
          /\ (result_of (sleep env interval) = Raise e
              \/ is_Exception e = false))
  /\ (Forall (fun env => net_ordinary (net env) = true) envs ->
      0 <= interval <= SLEEP_LIMIT ->
      Forall (fun env => on_sleep env = None) envs ->
      result_of (run_loop decode_ignore envs channel_id token messages interval)
      = Ok tt
      /\ sleeps (trace_of (run_loop decode_ignore envs channel_id token messages
                             interval))
         = repeat interval (List.length envs)).
Proof.
  split; [| split; [| split; [| split; [| split]]]].
  - intros script content e H.
    apply (send_message_raise decode_ignore script channel_id token content e H).
  - intros script content e Hf He.
    apply (send_message_failure decode_ignore script channel_id token content
             e Hf He).
  - intros env e H.
    apply (attempt_raise decode_ignore env channel_id token messages e H).
  - intros env e Hb He. apply attempt_swallows; assumption.
  - intros e He. apply run_loop_raise in He.
    destruct He as (env & Henv & [Hs | [Hx _]]); exists env; auto.
  - intros Hord Hi Hs. apply run_loop_returns; assumption.
Qed.

Lemma append_empty (s : string) : s ++ EmptyString = s.
Proof. induction s as [| c s IH]; [reflexivity |]. simpl. rewrite IH. reflexivity. Qed.

Lemma append_assoc (a b c : string) : (a ++ b) ++ c = a ++ b ++ c.
Proof. induction a as [| x a IH]; [reflexivity |]. simpl. rewrite IH. reflexivity. Qed.

(** The body, character by character around the escaped content. *)
Lemma dumps_message_text (content : string) :
  dumps_message content
  = "{" ++ dquote ++ "content" ++ dquote ++ ": "
    ++ dquote ++ json_escape content ++ dquote
    ++ ", " ++ dquote ++ "tts" ++ dquote ++ ": false}".
Proof.
  unfold dumps_message, json_string.
  cbn [json_escape json_escape_char append dquote].
  rewrite !append_assoc. reflexivity.
Qed.

(** The text [logging] prints for the error record. *)
Lemma http_error_text (status : Z) (reason snippet : string) :
  get_message (mk_log ERROR HTTP_ERROR_FMT
                 [ArgInt status; ArgStr reason; ArgStr snippet] None)
  = Some ("HTTP " ++ PyStr.of_Z status ++ " " ++ reason
          ++ " | response: " ++ snippet).
Proof.
  unfold get_message, HTTP_ERROR_FMT.
  cbn [log_fmt log_args percent_format Ascii.eqb Bool.eqb andb orb arg_text
       option_map].
  rewrite append_empty. reflexivity.
Qed.

(** C4: once a response has been read, a status from 200 to 299 makes
    [send_message] log the success and nothing else; any other status makes
    it log one error whose text holds the status code, the reason phrase
    and the decoding of at most the first 300 bytes of the body. *)
Theorem send_message_classifies_response (net : net_script)
  (channel_id token content : string) status reason resp_body :
  on_request net = None ->
  on_getresponse net = Ok (status, reason) ->
  on_read net = Ok resp_body ->
  (200 <= status <= 299 ->
   logs (trace_of (send_message decode_ignore net channel_id token content))
   = [mk_log INFO SENT_OK [] None])
  /\ (~ 200 <= status <= 299 ->
      let snippet := decode_ignore (firstn 300 resp_body) in
      let record :=
        mk_log ERROR HTTP_ERROR_FMT
          [ArgInt status; ArgStr reason; ArgStr snippet] None in
      logs (trace_of (send_message decode_ignore net channel_id token content))
      = [record]
      /\ get_message record
         = Some ("HTTP " ++ PyStr.of_Z status ++ " " ++ reason
                 ++ " | response: " ++ snippet)
      /\ (List.length (firstn 300 resp_body) <= 300)%nat).
Proof.
  intros H1 H2 H3.
  rewrite (send_message_response decode_ignore net channel_id token content
             status reason resp_body H1 H2 H3).
  destruct (body_head_firstn resp_body) as [Hhead Hlen].
  split.
  - intros Hs. apply status_range in Hs. rewrite Hs. reflexivity.
  - intros Hs. cbv zeta.
    destruct ((199 <? status) && (status <? 300)) eqn:E;
      [apply status_range in E; contradiction |].
    rewrite <- Hhead. repeat split; [| exact Hlen].
    apply http_error_text.
Qed.

(** C8: whatever the network does, [send_message] issues exactly one
    request: a POST over HTTPS to discord.com, port 443, timeout 30 seconds,
    path /api/v10/channels/<target_id>/messages, with the three headers
    (the credential as it is in Authorization) and the body
    {"content": <content>, "tts": false}, in which the content is a JSON
    string that reads back as [content]. *)
Theorem send_message_one_post (net : net_script)
  (channel_id token content : string) :
  requests (trace_of (send_message decode_ignore net channel_id token content))
  = [mk_request (mk_conn true "discord.com" 443 30) "POST"
       ("/api/v10/channels/" ++ channel_id ++ "/messages")
       ("{" ++ dquote ++ "content" ++ dquote ++ ": "
        ++ dquote ++ json_escape content ++ dquote
        ++ ", " ++ dquote ++ "tts" ++ dquote ++ ": false}")
       [("Content-Type", "application/json");
        ("User-Agent", "DiscordBot");
        ("Authorization", token)]]
  /\ json_unescape (json_escape content) = Some content
  /\ all_chars is_printable_ascii (json_escape content) = true.
Proof.
  split; [| apply json_escape_roundtrip].
  rewrite send_message_requests, dumps_message_text. reflexivity.
Qed.

End Program.

(** ** The statements at sample inputs *)

Lemma load_config_credential_prefixed_witness :
  load_config repr_unused (Ok (config_document record_unprefixed))
  = ([EvLog (mk_log WARNING PREFIX_WARNING [] None)],
     Ok ("123", "Bot abc", [JStr "Hello from VPS!"], 3600))
  /\ "Bot abc" <> EmptyString
  /\ PyStr.startswith "bot " (PyStr.lower "Bot abc") = true.
Proof.
  assert (H : load_config repr_unused (Ok (config_document record_unprefixed))
              = ([EvLog (mk_log WARNING PREFIX_WARNING [] None)],
                 Ok ("123", "Bot abc", [JStr "Hello from VPS!"], 3600)))
    by reflexivity.
  split; [exact H |].
  destruct (load_config_credential_prefixed repr_unused _ _ _ _ _ _ H)
    as (H1 & H2 & _).
  split; assumption.
Defined.

Lemma load_config_missing_required_fails_witness :
  token_missing_or_blank record_without_token
  /\ result_of (load_config repr_unused
                  (Ok (config_document record_without_token)))
     = Raise CONFIG_ERROR
  /\ exists e,
       main repr_unused decode_ascii
         (Ok (config_document record_without_token)) two_ticks
       = ([], Raise e).
Proof.
  assert (Hb : token_missing_or_blank record_without_token)
    by (left; reflexivity).
  split; [exact Hb |].
  destruct (load_config_missing_required_fails repr_unused decode_ascii
              (config_document record_without_token) record_without_token
              two_ticks eq_refl (or_introl Hb))
    as [(e & _ & Hmain & _) Hexact].
  split.
  - apply (Hexact EmptyString 3600); reflexivity.
  - exists e. exact Hmain.
Defined.

Lemma failures_never_stop_the_loop_witness :
  Forall (fun env => net_ordinary (net env) = true) two_ticks
  /\ logs (trace_of (send_message decode_ascii net_down "9" "Bot t" "A"))
     = [mk_log ERROR SEND_EXC_FMT [ArgExn dns_failure] (Some dns_failure)]
  /\ result_of (run_loop decode_ascii two_ticks "9" "Bot t"
                  [JStr "A {now}"; JInt 3] 60) = Ok tt
  /\ sleeps (trace_of (run_loop decode_ascii two_ticks "9" "Bot t"
                         [JStr "A {now}"; JInt 3] 60)) = [60; 60].
Proof.
  assert (Hord : Forall (fun env => net_ordinary (net env) = true) two_ticks)
    by (repeat constructor).
  split; [exact Hord |].
  destruct (failures_never_stop_the_loop decode_ascii two_ticks "9" "Bot t"
              [JStr "A {now}"; JInt 3] 60) as (_ & Hlog & _ & _ & _ & Hloop).
  split.
  - apply (Hlog net_down "A" dns_failure); reflexivity.
  - apply Hloop; [exact Hord | unfold SLEEP_LIMIT; lia | repeat constructor].
Defined.

Lemma send_message_classifies_response_witness :
  logs (trace_of (send_message decode_ascii net_204 "123" "Bot t" "hello"))
  = [mk_log INFO SENT_OK [] None]
  /\ logs (trace_of (send_message decode_ascii net_404 "123" "Bot t" "hello"))
     = [mk_log ERROR HTTP_ERROR_FMT
          [ArgInt 404; ArgStr "Not Found";
           ArgStr (decode_ascii (firstn 300 unknown_channel_body))] None].
Proof.
  split.
  - destruct (send_message_classifies_response decode_ascii net_204
                "123" "Bot t" "hello" 204 "No Content" [] eq_refl eq_refl eq_refl)
      as [H _].
    apply H. lia.
  - destruct (send_message_classifies_response decode_ascii net_404
                "123" "Bot t" "hello" 404 "Not Found" unknown_channel_body
                eq_refl eq_refl eq_refl) as [_ H].
    apply H. lia.
Defined.

Lemma render_message_replaces_placeholder_witness :
  valid_datetime sample_clock
  /\ render_message sample_clock "Time: {now}" = "Time: 2024-01-05 03:04:59"
  /\ matches_shape TIMESTAMP_SHAPE (strftime sample_clock) = true
  /\ read_timestamp (strftime sample_clock) = Some sample_clock
  /\ render_message sample_clock "no placeholder" = "no placeholder".
Proof.
  assert (Hv : valid_datetime sample_clock)
    by (unfold valid_datetime; simpl; lia).
  split; [exact Hv |].
  destruct (render_message_replaces_placeholder sample_clock "Time: {now}")
    as ((H1 & _) & _ & _ & H4).
  split; [exact H1 |]. split; [exact (proj1 (H4 Hv)) |].
  split; [exact (proj2 (proj2 (H4 Hv))) |].
  destruct (render_message_replaces_placeholder sample_clock "no placeholder")
    as (_ & _ & H3 & _).
  apply H3. reflexivity.
Defined.

Lemma load_config_interval_witness :
  config_record (config_document record_negative_interval)
  = ([], Ok (JObj record_negative_interval))
  /\ py_int (py_or (get_or_none "interval_seconds" record_negative_interval)
                   (JInt DEFAULT_INTERVAL)) = ([], Ok (-5))
  /\ exists e,
       result_of (load_config repr_unused
                    (Ok (config_document record_worded_interval))) = Raise e.
Proof.
  split; [reflexivity |]. split.
  - destruct (load_config_interval repr_unused
                (config_document record_negative_interval)
                record_negative_interval eq_refl) as [H _].
    apply (H [] "1" "Bot t" [JStr "Hello from VPS!"] (-5)). reflexivity.
  - destruct (load_config_interval repr_unused
                (config_document record_worded_interval)
                record_worded_interval eq_refl) as [_ H].
    apply (H (builtin ValueError)). reflexivity.
Defined.

Lemma load_config_templates_witness :
  load_config repr_unused (Ok (config_document record_messages_not_a_list))
  = ([], Ok ("1", "Bot t", [JStr "B"], 3600))
  /\ exists data members,
       Ok (config_document record_messages_not_a_list) = Ok data
       /\ config_record data = ([], Ok (JObj members)).
Proof.
  assert (H : load_config repr_unused
                (Ok (config_document record_messages_not_a_list))
              = ([], Ok ("1", "Bot t", [JStr "B"], 3600))) by reflexivity.
  split; [exact H |].
  destruct (load_config_templates repr_unused _ _ _ _ _ _ H)
    as (data & members & Hf & Hc & _).
  exists data, members. split; assumption.
Defined.

Lemma falsy_channelid_as_missing_witness :
  dict_get "channelid" record_zero_channel = Some (JInt 0)
  /\ truthy (JInt 0) = false
  /\ load_config repr_unused (Ok (config_document record_zero_channel))
     = load_config repr_unused
         (Ok (config_document (dict_remove "channelid" record_zero_channel)))
  /\ result_of (load_config repr_unused
                  (Ok (config_document record_zero_channel)))
     = Raise CONFIG_ERROR.
Proof.
  split; [reflexivity |]. split; [reflexivity |].
  destruct (falsy_channelid_as_missing repr_unused
              (config_document record_zero_channel) record_zero_channel (JInt 0)
              eq_refl eq_refl eq_refl) as (_ & Hsame & _ & Hexact).
  split; [exact Hsame |].
  apply (Hexact "Bot t" 3600); reflexivity.
Defined.

Lemma load_config_templates_nonempty_witness :
  load_config repr_unused (Ok (config_document record_messages_not_a_list))
  = ([], Ok ("1", "Bot t", [JStr "B"], 3600))
  /\ [JStr "B"] <> []
  /\ forall r, exists x,
       random_choice r [JStr "B"] = ([], Ok x) /\ In x [JStr "B"].
Proof.
  assert (H : load_config repr_unused
                (Ok (config_document record_messages_not_a_list))
              = ([], Ok ("1", "Bot t", [JStr "B"], 3600))) by reflexivity.
  split; [exact H |].
  destruct (load_config_templates_nonempty repr_unused _ _ _ _ _ _ H)
    as (H1 & H2 & _).
  split; assumption.
Defined.

(** C6 as worded fails: a negative [interval_seconds] is returned as it
    is, so the interval is not always positive, and a non-numeric one makes
    [load_config] raise, so it does not fall back to 3600. *)
Lemma interval_not_positive_nor_defaulted :
  load_config repr_unused (Ok (config_document record_negative_interval))
  = ([], Ok ("1", "Bot t", [JStr "Hello from VPS!"], -5))
  /\ ~ 0 < -5
  /\ load_config repr_unused (Ok (config_document record_worded_interval))
     = ([], Raise (builtin ValueError))
  /\ (forall t ch tok msgs,
         load_config repr_unused (Ok (config_document record_worded_interval))
         <> (t, Ok (ch, tok, msgs, 3600))).
Proof.
  split; [reflexivity |]. split; [lia |]. split; [reflexivity |].
  intros t ch tok msgs. discriminate.
Qed.

(** C7 as worded fails: a [message] field that is present but empty is
    not wrapped; the built-in text is used, although the record has the
    field. *)
Lemma blank_message_not_wrapped :
  dict_get "message" record_blank_message = Some (JStr EmptyString)
  /\ templates_as_specified record_blank_message = [JStr EmptyString]
  /\ load_config repr_unused (Ok (config_document record_blank_message))
     = ([], Ok ("1", "Bot t", [JStr "Hello from VPS!"], 3600))
  /\ [JStr "Hello from VPS!"] <> templates_as_specified record_blank_message.
Proof.
  repeat split; discriminate.
Qed.

(** * Further properties of the code *)

(** ** The sender, step by step *)

Section SenderSteps.
Variable decode_ignore : list byte -> string.

Local Ltac each_script net :=
  destruct net as [[e1 |] [[status reason] | e2] [resp_body | e3] cl];
  cbn [on_request on_getresponse on_read on_close].

Local Ltac run_call :=
  unfold send_message; rewrite close_swallowed;
  unfold try_finally, try_except, log_info, log_error, log_exception,
    env_raises, env_result, emit, bind, ret, raise;
  cbn [on_request on_getresponse on_read on_close];
  repeat match goal with
         | |- context [is_Exception ?e] => destruct (is_Exception e) eqn:?
         | |- context [(199 <? ?s) && (?s <? 300)] =>
             destruct ((199 <? s) && (s <? 300))
         end.

(** An interrupt leaves without a record in the log. *)
Lemma send_message_interrupt_logs (net : net_script)
  (channel_id token content : string) e :
  net_failure net = Some e ->
  is_Exception e = false ->
  logs (trace_of (send_message decode_ignore net channel_id token content)) = [].
Proof.
  intros Hf He. unfold net_failure in Hf.
  each_script net; cbn [on_request on_getresponse on_read] in Hf;
    inversion Hf; subst; run_call; try reflexivity; congruence.
Qed.

(** X1: The connection is closed exactly once, as the last thing a call does,
    on every path; and what [conn.close] raises, an interrupt included,
    changes nothing: it never leaves the call. *)
Theorem send_message_always_closes (net : net_script)
  (channel_id token content : string) (c : option exn) :
  (exists t,
      trace_of (send_message decode_ignore net channel_id token content)
      = (t ++ [EvClose])%list
      /\ ~ In EvClose t)
  /\ send_message decode_ignore (with_close net c) channel_id token content
     = send_message decode_ignore net channel_id token content.
Proof.
  split.
  - each_script net; run_call; eexists;
      (split; [reflexivity | cbn [In app]; intuition discriminate]).
  - unfold send_message. rewrite !close_swallowed. reflexivity.
Qed.

(** X2: The calls on the connection come in order and stop at the first that
    raises: the response is asked for only when the request went out, and
    read only when its head came in.  A call that returns has logged
    exactly one record; one that is interrupted has logged none. *)
Theorem send_message_steps_in_order (net : net_script)
  (channel_id token content : string) :
  io_events (trace_of (send_message decode_ignore net channel_id token content))
  = (EvRequest (mk_request get_connection "POST" (messages_path channel_id)
                  (dumps_message content) (get_headers token))
     :: match on_request net with
        | Some _ => []
        | None =>
            EvGetResponse
            :: match on_getresponse net with
               | Raise _ => []
               | Ok _ => [EvRead]
               end
        end ++ [EvClose])%list
  /\ match result_of (send_message decode_ignore net channel_id token content) with
     | Ok _ =>
         List.length
           (logs (trace_of (send_message decode_ignore net channel_id token
                              content))) = 1%nat
     | Raise _ =>
         logs (trace_of (send_message decode_ignore net channel_id token content))
         = []
     end.
Proof.
  each_script net; run_call; split; reflexivity.
Qed.

End SenderSteps.

(** ** The loop, iteration by iteration *)

Lemma try_except_passthrough {A} (body : M A) (handler : exn -> M A) :
  (forall e, result_of body = Raise e -> is_Exception e = false) ->
  try_except body handler = body.
Proof.
  intros H. destruct body as [t [a | e]]; [reflexivity |].
  unfold try_except. rewrite (H e eq_refl). reflexivity.
Qed.

Lemma paced_quiet (interval : Z) (pending : bool) (t1 t2 : list event) :
  requests t1 = [] -> sleeps t1 = [] ->
  paced interval pending (t1 ++ t2) = paced interval pending t2.
Proof.
  induction t1 as [| ev t1 IH]; [reflexivity |].
  destruct ev; cbn [requests sleeps flat_map app paced]; intros Hr Hs;
    try discriminate; apply IH; assumption.
Qed.

Lemma paced_one_request (interval : Z) (t1 t2 : list event) r :
  requests t1 = [r] -> sleeps t1 = [] ->
  paced interval false (t1 ++ t2) = paced interval true t2.
Proof.
  induction t1 as [| ev t1 IH]; [discriminate |].
  destruct ev; cbn [requests sleeps flat_map app paced]; intros Hr Hs;
    try discriminate; try (apply IH; assumption).
  inversion Hr. cbn [negb andb]. apply paced_quiet; assumption.
Qed.

Section LoopSteps.
Variable py_repr : json -> string.
Variable decode_ignore : list byte -> string.

(** With a [str] chosen, the [try] statement does what the call of
    [send_message] on its rendering does. *)
Lemma attempt_str (env : tick_env) (channel_id token : string)
  (messages : list json) (s : string) :
  random_choice (draw env) messages = ([], Ok (JStr s)) ->
  attempt decode_ignore env channel_id token messages
  = send_message decode_ignore (net env) channel_id token
      (render_message (clock env) s).
Proof.
  intros H. unfold attempt, attempt_body. rewrite H.
  change (@pair (list event) (outcome json) [] (Ok (JStr s)))
    with (ret (JStr s)).
  rewrite bind_ret_l. cbn [render_value]. rewrite bind_ret_l.
  apply try_except_passthrough. intros e He.
  apply (send_message_raise decode_ignore _ _ _ _ e He).
Qed.

(** With anything else chosen, rendering fails and the failure is logged. *)
Lemma attempt_not_str (env : tick_env) (channel_id token : string)
  (messages : list json) (v : json) :
  random_choice (draw env) messages = ([], Ok v) ->
  is_str v = false ->
  attempt decode_ignore env channel_id token messages
  = ([EvLog (loop_error_record (builtin AttributeError))], Ok tt).
Proof.
  intros H Hv. unfold attempt, attempt_body. rewrite H.
  change (@pair (list event) (outcome json) [] (Ok v)) with (ret v).
  rewrite bind_ret_l. destruct v; try discriminate; reflexivity.
Qed.

Lemma attempt_no_messages (env : tick_env) (channel_id token : string) :
  attempt decode_ignore env channel_id token []
  = ([EvLog (loop_error_record (builtin IndexError))], Ok tt).
Proof. reflexivity. Qed.

Lemma random_choice_total (r : nat) (messages : list json) :
  messages <> [] ->
  exists v, random_choice r messages = ([], Ok v) /\ In v messages.
Proof.
  destruct messages as [| y l]; [congruence |]. intros _.
  unfold random_choice, ret. eexists. split; [reflexivity |].
  apply nth_In. apply Nat.mod_upper_bound. discriminate.
Qed.

Lemma requests_attempt (env : tick_env) (channel_id token : string)
  (messages : list json) :
  requests (trace_of (attempt decode_ignore env channel_id token messages)) = []
  \/ exists r,
       requests (trace_of (attempt decode_ignore env channel_id token messages))
       = [r].
Proof.
  destruct messages as [| y l].
  - left. reflexivity.
  - destruct (random_choice_total (draw env) (y :: l)) as (v & Hv & _);
      [discriminate |].
    destruct (is_str v) eqn:E.
    + destruct v; try discriminate.
      rewrite (attempt_str env channel_id token _ s Hv), send_message_requests.
      right. eexists. reflexivity.
    + rewrite (attempt_not_str env channel_id token _ v Hv E). left. reflexivity.
Qed.

Lemma tick_trace (env : tick_env) (channel_id token : string)
  (messages : list json) (interval : Z) :
  tick decode_ignore env channel_id token messages interval
  = match result_of (attempt decode_ignore env channel_id token messages) with
    | Ok _ =>
        ((trace_of (attempt decode_ignore env channel_id token messages)
          ++ [EvSleep interval])%list,
         result_of (sleep env interval))
    | Raise e =>
        (trace_of (attempt decode_ignore env channel_id token messages), Raise e)
    end.
Proof.
  unfold tick.
  destruct (attempt decode_ignore env channel_id token messages) as [t [[] | e]];
    cbn [bind result_of trace_of fst snd]; [| reflexivity].
  unfold sleep. rewrite bind_emit.
  destruct ((interval <? - SLEEP_LIMIT) || (SLEEP_LIMIT <? interval));
    [reflexivity |].
  destruct (interval <? 0); [reflexivity |].
  destruct (on_sleep env); reflexivity.
Qed.

Lemma run_loop_cons (env : tick_env) (rest : list tick_env)
  (channel_id token : string) (messages : list json) (interval : Z) :
  run_loop decode_ignore (env :: rest) channel_id token messages interval
  = match result_of (tick decode_ignore env channel_id token messages interval) with
    | Ok _ =>
        ((trace_of (tick decode_ignore env channel_id token messages interval)
          ++ trace_of (run_loop decode_ignore rest channel_id token messages
                         interval))%list,
         result_of (run_loop decode_ignore rest channel_id token messages interval))
    | Raise e =>
        (trace_of (tick decode_ignore env channel_id token messages interval),
         Raise e)
    end.
Proof.
  cbn [run_loop].
  destruct (tick decode_ignore env channel_id token messages interval)
    as [t [[] | e]]; cbn [bind result_of trace_of fst snd]; [| reflexivity].
  destruct (run_loop decode_ignore rest channel_id token messages interval);
    reflexivity.
Qed.

(** Once the configuration is loaded, [main] logs its start and enters the
    loop. *)
Lemma main_after_load (file : file_read) (envs : list tick_env)
  t0 channel_id token messages interval :
  load_config py_repr file = (t0, Ok (channel_id, token, messages, interval)) ->
  main py_repr decode_ignore file envs
  = ((t0 ++ EvLog (mk_log INFO STARTED_FMT
                     [ArgStr channel_id; ArgInt interval;
                      ArgInt (Z.of_nat (List.length messages))] None)
         :: trace_of (run_loop decode_ignore envs channel_id token messages
                        interval))%list,
     result_of (run_loop decode_ignore envs channel_id token messages interval)).
Proof.
  intros H. unfold main. rewrite H. cbn [bind].
  unfold log_info. rewrite bind_emit. reflexivity.
Qed.

Lemma load_config_Ok_trace (file : file_read) t0 r :
  load_config py_repr file = (t0, Ok r) ->
  requests t0 = [] /\ sleeps t0 = [].
Proof.
  destruct r as [[[ch tok] msgs] iv]. intros H.
  apply load_config_Ok_inv in H. destruct H as (data & cfg & _ & _ & H).
  apply load_record_Ok_inv in H.
  destruct H as (members & raw & _ & _ & _ & _ & Ht & _). subst t0.
  destruct (PyStr.startswith "bot " (PyStr.lower (PyStr.strip raw)));
    split; reflexivity.
Qed.

End LoopSteps.

Section LoopProperties.
Variable py_repr : json -> string.
Variable decode_ignore : list byte -> string.

(** X3: What an iteration posts is the rendering, at that iteration's clock
    reading, of the template drawn, to the configured channel with the
    configured credential: with a [str] drawn, the [try] statement is the
    call of [send_message] on the rendered text and issues one request. *)
Theorem attempt_posts_rendered_choice (env : tick_env)
  (channel_id token : string) (messages : list json) (s : string) :
  random_choice (draw env) messages = ([], Ok (JStr s)) ->
  attempt decode_ignore env channel_id token messages
  = send_message decode_ignore (net env) channel_id token
      (render_message (clock env) s)
  /\ requests (trace_of (attempt decode_ignore env channel_id token messages))
     = [mk_request get_connection "POST" (messages_path channel_id)
          (dumps_message (render_message (clock env) s)) (get_headers token)].
Proof.
  intros H. rewrite (attempt_str decode_ignore env channel_id token messages s H).
  split; [reflexivity | apply send_message_requests].
Qed.

(** X4: Templates that are not strings are never posted: each iteration logs
    the AttributeError of the rendering, sends nothing and goes on to its
    sleep, so that, with an interval [time.sleep] accepts, the loop keeps
    running without a single request. *)
Theorem non_string_templates_post_nothing (envs : list tick_env)
  (channel_id token : string) (messages : list json) (interval : Z) :
  messages <> [] ->
  Forall (fun v => is_str v = false) messages ->
  0 <= interval <= SLEEP_LIMIT ->
  Forall (fun env => on_sleep env = None) envs ->
  result_of (run_loop decode_ignore envs channel_id token messages interval)
  = Ok tt
  /\ requests (trace_of (run_loop decode_ignore envs channel_id token messages
                           interval)) = []
  /\ logs (trace_of (run_loop decode_ignore envs channel_id token messages
                       interval))
     = repeat (loop_error_record (builtin AttributeError)) (List.length envs).
Proof.
  intros Hne Hall Hi Hs. induction envs as [| env rest IH];
    [repeat split; reflexivity |].
  inversion Hs; subst. destruct (IH H2) as (IHr & IHq & IHl).
  destruct (random_choice_total (draw env) messages Hne) as (v & Hv & Hin).
  pose proof (proj1 (Forall_forall _ _) Hall v Hin) as Hstr.
  rewrite run_loop_cons, tick_trace.
  rewrite (attempt_not_str decode_ignore env channel_id token messages v Hv Hstr).
  cbn [result_of trace_of fst snd].
  rewrite (sleep_returns env interval Hi H1). cbn [result_of trace_of fst snd].
  rewrite IHr, requests_app, logs_app, IHq, IHl. repeat split; reflexivity.
Qed.

(** X5: An interrupt while sending ends the loop there: the connection is
    closed, nothing is logged, the iteration does not sleep and no later
    iteration runs. *)
Theorem interrupt_ends_the_loop (env : tick_env) (rest : list tick_env)
  (channel_id token : string) (messages : list json) (interval : Z)
  (s : string) (e : exn) :
  random_choice (draw env) messages = ([], Ok (JStr s)) ->
  net_failure (net env) = Some e ->
  is_Exception e = false ->
  run_loop decode_ignore (env :: rest) channel_id token messages interval
  = (trace_of (send_message decode_ignore (net env) channel_id token
                 (render_message (clock env) s)), Raise e)
  /\ logs (trace_of (run_loop decode_ignore (env :: rest) channel_id token
                       messages interval)) = []
  /\ sleeps (trace_of (run_loop decode_ignore (env :: rest) channel_id token
                         messages interval)) = [].
Proof.
  intros Hc Hf He.
  assert (Hrun : run_loop decode_ignore (env :: rest) channel_id token messages
                   interval
                 = (trace_of (send_message decode_ignore (net env) channel_id
                                token (render_message (clock env) s)), Raise e)).
  { rewrite run_loop_cons, tick_trace.
    rewrite (attempt_str decode_ignore env channel_id token messages s Hc).
    rewrite (send_message_interrupt decode_ignore (net env) channel_id token
               _ e Hf He).
    reflexivity. }
  rewrite Hrun. cbn [trace_of fst]. split; [reflexivity |]. split.
  - apply (send_message_interrupt_logs decode_ignore (net env) channel_id token
             _ e Hf He).
  - rewrite <- (attempt_str decode_ignore env channel_id token messages s Hc).
    apply sleeps_attempt.
Qed.

(** X6: The loop is paced and never retries: whatever happens, every sleep it
    begins lasts [interval], no two requests are made without a sleep
    between them, and there are no more requests than iterations. *)
Theorem run_loop_paced (envs : list tick_env) (channel_id token : string)
  (messages : list json) (interval : Z) :
  paced interval false
    (trace_of (run_loop decode_ignore envs channel_id token messages interval))
  = true
  /\ (List.length
        (requests (trace_of (run_loop decode_ignore envs channel_id token
                               messages interval)))
      <= List.length envs)%nat.
Proof.
  induction envs as [| env rest [IHp IHn]]; [split; [reflexivity | apply Nat.le_refl] |].
  rewrite run_loop_cons, tick_trace.
  pose proof (sleeps_attempt decode_ignore env channel_id token messages) as Hsl.
  pose proof (requests_attempt decode_ignore env channel_id token messages) as Hrq.
  set (ta := trace_of (attempt decode_ignore env channel_id token messages)) in *.
  assert (Hend : forall p, paced interval p [EvSleep interval] = true).
  { intros p. cbn [paced]. rewrite Z.eqb_refl. reflexivity. }
  assert (Hgo : forall p,
             paced interval p
               (EvSleep interval
                :: trace_of (run_loop decode_ignore rest channel_id token
                               messages interval)) = true).
  { intros p. cbn [paced]. rewrite Z.eqb_refl, IHp. reflexivity. }
  destruct (result_of (attempt decode_ignore env channel_id token messages))
    as [[] | e]; cbn [result_of trace_of fst snd].
  - destruct (result_of (sleep env interval)) as [[] | e];
      cbn [result_of trace_of fst snd].
    + rewrite <- app_assoc. cbn [app].
      destruct Hrq as [Hrq | [r Hrq]].
      * rewrite (paced_quiet interval false ta _ Hrq Hsl).
        rewrite !requests_app, Hrq. unfold requests in *. cbn [flat_map app List.length] in *.
        split; [apply Hgo | lia].
      * rewrite (paced_one_request interval ta _ r Hrq Hsl).
        rewrite !requests_app, Hrq. unfold requests in *. cbn [flat_map app List.length] in *.
        split; [apply Hgo | lia].
    + destruct Hrq as [Hrq | [r Hrq]].
      * rewrite (paced_quiet interval false ta _ Hrq Hsl).
        rewrite requests_app, Hrq. unfold requests in *. cbn [flat_map app List.length] in *.
        split; [apply Hend | lia].
      * rewrite (paced_one_request interval ta _ r Hrq Hsl).
        rewrite requests_app, Hrq. unfold requests in *. cbn [flat_map app List.length] in *.
        split; [apply Hend | lia].
  - rewrite <- (app_nil_r ta).
    destruct Hrq as [Hrq | [r Hrq]].
    + rewrite (paced_quiet interval false ta _ Hrq Hsl), app_nil_r, Hrq.
      split; [reflexivity | cbn; lia].
    + rewrite (paced_one_request interval ta _ r Hrq Hsl), app_nil_r, Hrq.
      split; [reflexivity | cbn; lia].
Qed.

(** X7: The start is logged once, after the loader's events and before
    anything is sent, and reads
    "Bot started | channel=<id> | interval=<seconds>s | messages=<count>". *)
Theorem main_logs_its_start (file : file_read) (envs : list tick_env)
  t0 channel_id token messages interval :
  load_config py_repr file = (t0, Ok (channel_id, token, messages, interval)) ->
  let started :=
    mk_log INFO STARTED_FMT
      [ArgStr channel_id; ArgInt interval;
       ArgInt (Z.of_nat (List.length messages))] None in
  trace_of (main py_repr decode_ignore file envs)
  = (t0 ++ EvLog started
        :: trace_of (run_loop decode_ignore envs channel_id token messages
                       interval))%list
  /\ requests t0 = []
  /\ get_message started
     = Some ("Bot started | channel=" ++ channel_id ++ " | interval="
             ++ PyStr.of_Z interval ++ "s | messages="
             ++ PyStr.of_Z (Z.of_nat (List.length messages))).
Proof.
  intros H. cbv zeta.
  rewrite (main_after_load py_repr decode_ignore file envs _ _ _ _ _ H).
  split; [reflexivity |]. split.
  - apply (load_config_Ok_trace py_repr file t0 _ H).
  - unfold get_message, STARTED_FMT.
    cbn [log_fmt log_args percent_format Ascii.eqb Bool.eqb andb orb arg_text
         option_map].
    rewrite append_empty. reflexivity.
Qed.

(** X8: A negative interval passes the loader but ends the process at the
    first sleep: after one attempt [time.sleep] raises outside the [try],
    ValueError down to -9223372036 seconds and OverflowError below, and
    [main] ends with it, whatever would have come next. *)
Theorem negative_interval_ends_main (file : file_read) (env : tick_env)
  (rest : list tick_env) t0 channel_id token messages interval :
  load_config py_repr file = (t0, Ok (channel_id, token, messages, interval)) ->
  interval < 0 ->
  net_ordinary (net env) = true ->
  result_of (main py_repr decode_ignore file (env :: rest))
  = Raise (builtin (if interval <? - SLEEP_LIMIT
                    then OverflowError else ValueError))
  /\ sleeps (trace_of (main py_repr decode_ignore file (env :: rest)))
     = [interval]
  /\ (List.length
        (requests (trace_of (main py_repr decode_ignore file (env :: rest))))
      <= 1)%nat.
Proof.
  intros H Hneg Hord.
  rewrite (main_after_load py_repr decode_ignore file _ _ _ _ _ _ H).
  cbn [result_of trace_of fst snd].
  destruct (load_config_Ok_trace py_repr file t0 _ H) as [Hq0 Hs0].
  rewrite run_loop_cons, tick_trace.
  rewrite (attempt_returns decode_ignore env channel_id token messages Hord).
  cbn [result_of trace_of fst snd].
  assert (Hsleep : result_of (sleep env interval)
                   = Raise (builtin (if interval <? - SLEEP_LIMIT
                                     then OverflowError else ValueError))).
  { unfold sleep. rewrite bind_emit. cbn [result_of snd].
    assert (Hhi : (SLEEP_LIMIT <? interval) = false)
      by (apply Z.ltb_ge; unfold SLEEP_LIMIT; lia).
    rewrite Hhi, orb_false_r.
    destruct (interval <? - SLEEP_LIMIT); [reflexivity |].
    apply Z.ltb_lt in Hneg. rewrite Hneg. reflexivity. }
  rewrite Hsleep. cbn [result_of trace_of fst snd].
  split; [reflexivity |].
  rewrite sleeps_app, requests_app, Hq0, Hs0.
  change (sleeps (EvLog ?r :: ?l)) with (sleeps l).
  change (requests (EvLog ?r :: ?l)) with (requests l).
  rewrite sleeps_app, requests_app, sleeps_attempt.
  split; [reflexivity |].
  destruct (requests_attempt decode_ignore env channel_id token messages)
    as [Hrq | [r Hrq]]; rewrite Hrq; cbn; lia.
Qed.

End LoopProperties.

(** ** Trimming *)

Section StripFacts.
Variable sp : ascii -> bool.

Lemma lstrip_by_starts (s : string) : starts_clear sp (PyStr.lstrip_by sp s).
Proof.
  induction s as [| c r IH]; [exact I |].
  cbn [PyStr.lstrip_by]. destruct (sp c) eqn:E; [exact IH | exact E].
Qed.

Lemma lstrip_by_fix (s : string) :
  starts_clear sp s -> PyStr.lstrip_by sp s = s.
Proof.
  destruct s as [| c r]; [reflexivity |]. cbn [starts_clear PyStr.lstrip_by].
  intros ->. reflexivity.
Qed.

Lemma rstrip_by_starts (s : string) :
  starts_clear sp s -> starts_clear sp (PyStr.rstrip_by sp s).
Proof.
  destruct s as [| c r]; [intros; exact I |].
  cbn [starts_clear PyStr.rstrip_by]. intros Hc.
  destruct (PyStr.rstrip_by sp r); [rewrite Hc |]; exact Hc.
Qed.

Lemma rstrip_by_idem (s : string) :
  PyStr.rstrip_by sp (PyStr.rstrip_by sp s) = PyStr.rstrip_by sp s.
Proof.
  induction s as [| c r IH]; [reflexivity |].
  cbn [PyStr.rstrip_by]. destruct (PyStr.rstrip_by sp r) as [| d t] eqn:E.
  - destruct (sp c) eqn:Ec; [reflexivity |].
    cbn [PyStr.rstrip_by]. rewrite Ec. reflexivity.
  - change (PyStr.rstrip_by sp (String c (String d t)))
      with (match PyStr.rstrip_by sp (String d t) with
            | EmptyString => if sp c then EmptyString else String c EmptyString
            | String d' t' => String c (String d' t')
            end).
    rewrite IH. reflexivity.
Qed.

Lemma strip_by_idem (s : string) :
  PyStr.strip_by sp (PyStr.strip_by sp s) = PyStr.strip_by sp s.
Proof.
  unfold PyStr.strip_by.
  rewrite (lstrip_by_fix (PyStr.rstrip_by sp (PyStr.lstrip_by sp s))).
  - apply rstrip_by_idem.
  - apply rstrip_by_starts, lstrip_by_starts.
Qed.

Lemma rstrip_by_cons (c : ascii) (t : string) :
  PyStr.rstrip_by sp t <> EmptyString ->
  PyStr.rstrip_by sp (String c t) = String c (PyStr.rstrip_by sp t).
Proof.
  intros H. cbn [PyStr.rstrip_by].
  destruct (PyStr.rstrip_by sp t); [congruence | reflexivity].
Qed.

Lemma strip_by_clear (s : string) :
  all_chars (fun c => negb (sp c)) s = true -> PyStr.strip_by sp s = s.
Proof.
  intros H. unfold PyStr.strip_by. rewrite lstrip_by_fix.
  - induction s as [| c r IH]; [reflexivity |].
    cbn [all_chars] in H. apply andb_true_iff in H. destruct H as [Hc Hr].
    apply negb_true_iff in Hc.
    cbn [PyStr.rstrip_by]. rewrite (IH Hr). destruct r; [rewrite Hc |]; reflexivity.
  - destruct s as [| c r]; [exact I |]. cbn [all_chars starts_clear] in *.
    apply andb_true_iff in H. destruct H as [Hc _].
    apply negb_true_iff. exact Hc.
Qed.

End StripFacts.

Lemma strip_idem (s : string) : PyStr.strip (PyStr.strip s) = PyStr.strip s.
Proof. apply strip_by_idem. Qed.

(** The prefix survives trimming when something follows it. *)
Lemma strip_bot_prefix (t : string) :
  PyStr.strip t = t -> t <> EmptyString ->
  PyStr.strip ("Bot " ++ t) = "Bot " ++ t.
Proof.
  intros Ht Hne.
  assert (Hr : PyStr.rstrip_by PyStr.is_space t = t).
  { rewrite <- Ht at 1. unfold PyStr.strip, PyStr.strip_by.
    rewrite rstrip_by_idem. exact Ht. }
  unfold PyStr.strip, PyStr.strip_by.
  change (PyStr.lstrip_by PyStr.is_space ("Bot " ++ t)) with ("Bot " ++ t).
  cbn [append].
  assert (Hfix : forall c u,
             PyStr.rstrip_by PyStr.is_space u = u -> u <> EmptyString ->
             PyStr.rstrip_by PyStr.is_space (String c u) = String c u).
  { intros c u Hu Hn. rewrite rstrip_by_cons; rewrite Hu; [reflexivity | exact Hn]. }
  repeat (apply Hfix; [| first [discriminate | exact Hne]]). exact Hr.
Qed.

(** The decimal text of an integer has at least one character and no
    white space. *)
Lemma of_Z_clear (z : Z) :
  PyStr.of_Z z <> EmptyString /\ all_chars unspaced (PyStr.of_Z z) = true.
Proof.
  assert (Hu : forall d, all_chars unspaced (NilEmpty.string_of_uint d) = true).
  { induction d; cbn [NilEmpty.string_of_uint all_chars]; try rewrite IHd;
      reflexivity. }
  assert (Hz : forall d, NilZero.string_of_uint d <> EmptyString
                         /\ all_chars unspaced (NilZero.string_of_uint d) = true).
  { intros d. destruct d;
      (split; [discriminate | try reflexivity; apply (Hu (_ d))]). }
  unfold PyStr.of_Z. destruct (Z.to_int z) as [d | d]; cbn [NilZero.string_of_int].
  - apply Hz.
  - split; [discriminate |]. cbn [all_chars]. apply (Hz d).
Qed.

Lemma strip_of_Z (z : Z) : PyStr.strip (PyStr.of_Z z) = PyStr.of_Z z.
Proof. apply strip_by_clear. apply of_Z_clear. Qed.

(** ** The loader, case by case *)

Section LoaderProperties.
Variable py_repr : json -> string.

Lemma config_record_falsy (doc : list (string * json)) :
  truthy (get_or_none "Config" doc) = false ->
  config_record (JObj doc) = ([], Ok (JObj [])).
Proof.
  intros H. unfold config_record, py_get. rewrite bind_ret_l, (py_or_falsy _ _ H).
  reflexivity.
Qed.

Lemma config_record_first (doc : list (string * json)) (cfg : json)
  (rest : list json) :
  get_or_none "Config" doc = JList (cfg :: rest) ->
  config_record (JObj doc) = ([], Ok cfg).
Proof.
  intros H. unfold config_record, py_get. rewrite bind_ret_l, H. reflexivity.
Qed.

Lemma load_config_raise_early (data : json) e :
  config_record data = ([], Raise e) ->
  load_config py_repr (Ok data) = ([], Raise e).
Proof.
  intros H. unfold load_config, env_result.
  change (@pair (list event) (outcome json) [] (Ok data)) with (ret data).
  rewrite bind_ret_l, H. reflexivity.
Qed.

Lemma token_field_of_processed (members : list (string * json)) (raw : string) :
  py_or (get_or_none "token" members) (JStr EmptyString) = JStr raw ->
  PyStr.strip raw <> EmptyString ->
  dict_get "token" members = Some (JStr raw).
Proof.
  unfold py_or, get_or_none. intros Htok Hne.
  destruct (dict_get "token" members) as [v |].
  - destruct (truthy v); [congruence |].
    inversion Htok; subst raw. exfalso. apply Hne. reflexivity.
  - simpl in Htok. inversion Htok; subst raw. exfalso. apply Hne. reflexivity.
Qed.

(** X9: A document without a usable [Config] (the key absent, null, an empty
    list, or any other falsy value) is loaded as the empty record and fails
    with the ValueError of line 65, never with a KeyError or an
    IndexError. *)
Theorem missing_config_is_empty_record (doc : list (string * json)) :
  truthy (get_or_none "Config" doc) = false ->
  load_config py_repr (Ok (JObj doc)) = ([], Raise CONFIG_ERROR).
Proof.
  intros H.
  rewrite (load_config_of_record py_repr _ _ (config_record_falsy doc H)).
  reflexivity.
Qed.

(** X10: Only the first element of the [Config] list counts: the elements
    after it, and every other key of the document, change nothing. *)
Theorem only_first_record_is_read (doc doc' : list (string * json))
  (cfg : json) (rest rest' : list json) :
  get_or_none "Config" doc = JList (cfg :: rest) ->
  get_or_none "Config" doc' = JList (cfg :: rest') ->
  load_config py_repr (Ok (JObj doc)) = load_record py_repr cfg
  /\ load_config py_repr (Ok (JObj doc')) = load_config py_repr (Ok (JObj doc)).
Proof.
  intros H H'.
  rewrite (load_config_of_record py_repr _ _ (config_record_first doc cfg rest H)).
  rewrite (load_config_of_record py_repr _ _
             (config_record_first doc' cfg rest' H')).
  split; reflexivity.
Qed.

(** X11: A document of the wrong shape fails before any field is looked at,
    with the exception of the operation that does not apply: AttributeError
    when the document or the record is not an object (a string [Config]
    gives its first character as the record), KeyError when [Config] is a
    non-empty object, TypeError when it is a number or true.  Nothing is
    logged. *)
Theorem malformed_document_errors (data : json) (doc : list (string * json)) :
  (is_obj data = false ->
   load_config py_repr (Ok data) = ([], Raise (builtin AttributeError)))
  /\ (forall cfg rest,
         get_or_none "Config" doc = JList (cfg :: rest) -> is_obj cfg = false ->
         load_config py_repr (Ok (JObj doc))
         = ([], Raise (builtin AttributeError)))
  /\ (forall c r,
         get_or_none "Config" doc = JStr (String c r) ->
         load_config py_repr (Ok (JObj doc))
         = ([], Raise (builtin AttributeError)))
  /\ (forall m ms,
         get_or_none "Config" doc = JObj (m :: ms) ->
         load_config py_repr (Ok (JObj doc)) = ([], Raise (builtin KeyError)))
  /\ (forall v,
         get_or_none "Config" doc = v -> truthy v = true ->
         (exists b, v = JBool b) \/ (exists z, v = JInt z)
         \/ (exists f, v = JFloat f) ->
         load_config py_repr (Ok (JObj doc)) = ([], Raise (builtin TypeError))).
Proof.
  repeat split.
  - intros H. apply load_config_raise_early.
    destruct data; try reflexivity; discriminate.
  - intros cfg rest H Hcfg.
    rewrite (load_config_of_record py_repr _ _
               (config_record_first doc cfg rest H)).
    destruct cfg; try reflexivity; discriminate.
  - intros c r H.
    assert (Hc : config_record (JObj doc)
                 = ([], Ok (JStr (String c EmptyString)))).
    { unfold config_record, py_get. rewrite bind_ret_l, H. reflexivity. }
    rewrite (load_config_of_record py_repr _ _ Hc). reflexivity.
  - intros m ms H. apply load_config_raise_early.
    unfold config_record, py_get. rewrite bind_ret_l, H. reflexivity.
  - intros v H Ht Hv. apply load_config_raise_early.
    unfold config_record, py_get. rewrite bind_ret_l, H, (py_or_truthy _ _ Ht).
    destruct Hv as [[b ->] | [[z ->] | [f ->]]]; reflexivity.
Qed.

(** X12: A token that is not a string (a number, true, a list, an object)
    makes the loader fail with the AttributeError of [strip], not with the
    ValueError of line 65, whatever the other fields hold, and before
    anything is logged. *)
Theorem non_string_token_fails (data : json) (members : list (string * json)) :
  config_record data = ([], Ok (JObj members)) ->
  truthy (get_or_none "token" members) = true ->
  is_str (get_or_none "token" members) = false ->
  load_config py_repr (Ok data) = ([], Raise (builtin AttributeError)).
Proof.
  intros Hcfg Ht Hs. rewrite (load_config_of_record py_repr _ _ Hcfg).
  rewrite load_record_obj, (py_or_truthy _ _ Ht).
  destruct (get_or_none "token" members); try discriminate; reflexivity.
Qed.

(** X13: The channel id is whatever [str()] makes of a truthy [channelid],
    trimmed: a string gives its trimmed text, an integer its decimal text,
    and [true] is accepted as the text "True". *)
Theorem channel_id_coercion (file : file_read) t ch tok msgs iv :
  load_config py_repr file = (t, Ok (ch, tok, msgs, iv)) ->
  exists data members v,
    file = Ok data
    /\ config_record data = ([], Ok (JObj members))
    /\ dict_get "channelid" members = Some v
    /\ truthy v = true
    /\ (forall s, v = JStr s -> ch = PyStr.strip s)
    /\ (forall z, v = JInt z -> ch = PyStr.of_Z z)
    /\ (forall b, v = JBool b -> ch = "True").
Proof.
  intros H. apply load_config_Ok_inv in H.
  destruct H as (data & cfg & Hfile & Hcfg & H).
  apply load_record_Ok_inv in H.
  destruct H as (members & raw & -> & _ & _ & _ & _ & Hch & Hne & _).
  unfold get_or_none in Hch.
  destruct (dict_get "channelid" members) as [v |] eqn:Hget;
    [| exfalso; apply Hne; rewrite Hch; reflexivity].
  destruct (truthy v) eqn:Ht;
    [| exfalso; apply Hne; rewrite Hch, (py_or_falsy _ _ Ht); reflexivity].
  rewrite (py_or_truthy _ _ Ht) in Hch.
  exists data, members, v. repeat split; auto.
  - intros s ->. exact Hch.
  - intros z ->. rewrite Hch. apply strip_of_Z.
  - intros b ->. simpl in Ht. subst b. exact Hch.
Qed.

(** X14: What the loader returns is trimmed: neither the channel id nor the
    credential begins or ends with white space, so trimming them again
    changes nothing. *)
Theorem loaded_fields_are_trimmed (file : file_read) t ch tok msgs iv :
  load_config py_repr file = (t, Ok (ch, tok, msgs, iv)) ->
  PyStr.strip ch = ch /\ PyStr.strip tok = tok.
Proof.
  intros H. apply load_config_Ok_inv in H.
  destruct H as (data & cfg & Hfile & Hcfg & H).
  apply load_record_Ok_inv in H.
  destruct H as (members & raw & -> & _ & Hne & Htok & _ & Hch & _).
  split.
  - rewrite Hch. apply strip_idem.
  - rewrite Htok.
    destruct (PyStr.startswith "bot " (PyStr.lower (PyStr.strip raw))).
    + apply strip_idem.
    + apply strip_bot_prefix; [apply strip_idem | exact Hne].
Qed.

(** X15: Loading is idempotent on the credential: a record that differs only
    in holding, as its token, the credential that was returned is loaded to
    the same result, and this time without the warning. *)
Theorem reloading_the_credential (members members' : list (string * json))
  t ch tok msgs iv :
  load_record py_repr (JObj members) = (t, Ok (ch, tok, msgs, iv)) ->
  dict_get "token" members' = Some (JStr tok) ->
  (forall k, String.eqb k "token" = false ->
             dict_get k members' = dict_get k members) ->
  load_record py_repr (JObj members') = ([], Ok (ch, tok, msgs, iv)).
Proof.
  intros H Htok' Hsame.
  apply load_record_Ok_inv in H.
  destruct H as (m & raw & Hm & _ & Hne & Htok & _ & Hch & Hchne & Hmsgs & Hint).
  inversion Hm; subst m. clear Hm.
  assert (Htrim : PyStr.strip tok = tok).
  { rewrite Htok.
    destruct (PyStr.startswith "bot " (PyStr.lower (PyStr.strip raw)));
      [apply strip_idem | apply strip_bot_prefix; [apply strip_idem | exact Hne]]. }
  assert (Hpre : PyStr.startswith "bot " (PyStr.lower tok) = true).
  { rewrite Htok.
    destruct (PyStr.startswith "bot " (PyStr.lower (PyStr.strip raw))) eqn:E;
      [exact E | apply startswith_bot_prefixed]. }
  assert (Htokne : truthy (JStr tok) = true).
  { apply truthy_str_true. rewrite Htok.
    destruct (PyStr.startswith "bot " (PyStr.lower (PyStr.strip raw)));
      [exact Hne | discriminate]. }
  assert (Hget : forall k, String.eqb k "token" = false ->
                           get_or_none k members' = get_or_none k members).
  { intros k Hk. unfold get_or_none. rewrite (Hsame k Hk). reflexivity. }
  assert (Hgt : get_or_none "token" members' = JStr tok).
  { unfold get_or_none. rewrite Htok'. reflexivity. }
  rewrite load_record_obj. cbv zeta. rewrite messages_of_record.
  rewrite Hgt, (Hget "interval_seconds" eq_refl), (Hget "channelid" eq_refl),
    (Hget "messages" eq_refl), (Hget "message" eq_refl).
  rewrite (py_or_truthy _ _ Htokne). unfold py_strip. rewrite bind_ret_l.
  rewrite Hint. change (@pair (list event) (outcome Z) [] (Ok iv)) with (ret iv).
  rewrite bind_ret_l, Htrim, Htokne, Hpre. cbn [negb andb].
  rewrite bind_ret_l, Htokne, <- Hch.
  apply truthy_str_true in Hchne. rewrite Hchne. cbn [negb orb].
  rewrite Hmsgs. reflexivity.
Qed.

(** X16: The loader touches nothing but the log, and logs nothing but the
    warning: its events are none or the one warning, and when it returns,
    the warning is there exactly when the prefix was added. *)
Theorem loader_logs_only_the_warning (file : file_read) :
  (trace_of (load_config py_repr file) = []
   \/ trace_of (load_config py_repr file) = [EvLog prefix_warning_record])
  /\ (forall t ch tok msgs iv,
         load_config py_repr file = (t, Ok (ch, tok, msgs, iv)) ->
         exists data members raw,
           file = Ok data
           /\ config_record data = ([], Ok (JObj members))
           /\ dict_get "token" members = Some (JStr raw)
           /\ ((t = [] /\ tok = PyStr.strip raw)
               \/ (t = [EvLog prefix_warning_record]
                   /\ tok = "Bot " ++ PyStr.strip raw
                   /\ PyStr.startswith "bot " (PyStr.lower (PyStr.strip raw))
                      = false))).
Proof.
  split.
  - destruct file as [data | e]; [| left; reflexivity].
    destruct (config_record data) as [tc [cfg | e]] eqn:Hc.
    + pose proof (config_record_trace data) as Ht. rewrite Hc in Ht.
      simpl in Ht. subst tc.
      rewrite (load_config_of_record py_repr _ _ Hc).
      apply load_record_trace.
    + pose proof (config_record_trace data) as Ht. rewrite Hc in Ht.
      simpl in Ht. subst tc.
      rewrite (load_config_raise_early _ _ Hc). left. reflexivity.
  - intros t ch tok msgs iv H. apply load_config_Ok_inv in H.
    destruct H as (data & cfg & Hfile & Hcfg & H).
    apply load_record_Ok_inv in H.
    destruct H as (members & raw & -> & Hraw & Hne & Htok & Ht & _).
    exists data, members, raw. split; [assumption |]. split; [assumption |].
    split; [apply token_field_of_processed; assumption |].
    destruct (PyStr.startswith "bot " (PyStr.lower (PyStr.strip raw)));
      [left | right]; auto.
Qed.

End LoaderProperties.

(** ** Rendering twice *)

Lemma render_no_placeholder (clock : datetime) (template : string) :
  valid_datetime clock ->
  PyStr.contains PLACEHOLDER (render_message clock template) = false.
Proof.
  intros Hv. unfold render_message, PyStr.replace.
  rewrite replace_from_join_split.
  destruct (strftime_plain clock Hv) as [Hts Hplain].
  apply join_plain_free; [exact Hts | exact Hplain |].
  apply split_from_free. discriminate.
Qed.

(** X17: Rendering is idempotent: a rendered message holds no placeholder any
    more, so rendering it again, at whatever later time, gives it back
    unchanged. *)
Theorem render_message_idempotent (first later : datetime) (template : string) :
  valid_datetime first ->
  render_message later (render_message first template)
  = render_message first template.
Proof.
  intros Hv. unfold render_message at 1.
  apply replace_from_free. apply render_no_placeholder. exact Hv.
Qed.

(** ** How the process ends *)

Section EntryProperties.
Variable py_repr : json -> string.
Variable decode_ignore : list byte -> string.

Lemma interrupt_not_Exception (e : exn) :
  is_KeyboardInterrupt e = true -> is_Exception e = false.
Proof.
  unfold is_KeyboardInterrupt, is_Exception.
  destruct (exn_cls e); intros H; first [reflexivity | discriminate H].
Qed.

Lemma py_int_raise (v : json) e :
  result_of (py_int v) = Raise e -> is_Exception e = true.
Proof.
  destruct v as [| b | z | f | s | l | m]; cbn [py_int result_of raise ret snd];
    intros H; try (inversion H; reflexivity); try discriminate.
  - destruct f; cbn in H; inversion H; reflexivity.
  - destruct (PyStr.parse_int s); cbn in H; inversion H; reflexivity.
Qed.

(** Whatever the loader itself raises is an [Exception]. *)
Lemma load_record_raise (cfg : json) e :
  result_of (load_record py_repr cfg) = Raise e -> is_Exception e = true.
Proof.
  destruct cfg as [| b | z | f | s | l | members];
    try (intros H; inversion H; reflexivity).
  rewrite load_record_obj.
  destruct (py_or (get_or_none "token" members) (JStr EmptyString))
    as [| b | z | f | raw | l | m];
    try (intros H; inversion H; reflexivity).
  unfold py_strip. rewrite bind_ret_l, result_of_bind.
  destruct (result_of (py_int (py_or (get_or_none "interval_seconds" members)
                                     (JInt DEFAULT_INTERVAL)))) as [iv | e']
    eqn:Hint.
  - cbv zeta. rewrite result_of_bind.
    set (ch0 := PyStr.strip (py_str py_repr _)).
    set (tok0 := PyStr.strip raw).
    assert (Hval : forall tk,
               result_of (if negb (truthy (JStr tk)) || negb (truthy (JStr ch0))
                          then raise CONFIG_ERROR
                          else ret (ch0, tk,
                                    (if negb
                                          (truthy (get_or_none "messages" members)
                                           && isinstance_list
                                                (get_or_none "messages" members)
                                           && (0 <? list_len
                                                      (get_or_none "messages"
                                                         members)))
                                     then [py_or (get_or_none "message" members)
                                                 (JStr DEFAULT_MESSAGE)]
                                     else list_items
                                            (get_or_none "messages" members)),
                                    iv)) = Raise e ->
               is_Exception e = true).
    { intros tk. destruct (negb (truthy (JStr tk)) || negb (truthy (JStr ch0)));
        intros H; inversion H; reflexivity. }
    destruct (truthy (JStr tok0) && negb (PyStr.startswith "bot " (PyStr.lower tok0))).
    + unfold log_warning. rewrite bind_emit. cbn [result_of ret snd]. apply Hval.
    + cbn [result_of ret snd]. apply Hval.
  - intros H. inversion H; subst. apply (py_int_raise _ _ Hint).
Qed.

Lemma config_record_raise (data : json) e :
  result_of (config_record data) = Raise e -> is_Exception e = true.
Proof.
  unfold config_record. destruct data as [| b | z | f | s | l | m];
    try (intros H; inversion H; reflexivity).
  unfold py_get. rewrite bind_ret_l.
  destruct (py_or (get_or_none "Config" m) (JList [JObj []]))
    as [| b | z | f | s | l | m']; try (intros H; inversion H; reflexivity).
  - destruct s; intros H; inversion H; reflexivity.
  - destruct l; intros H; inversion H; reflexivity.
Qed.

Lemma load_config_raise (data : json) e :
  result_of (load_config py_repr (Ok data)) = Raise e -> is_Exception e = true.
Proof.
  unfold load_config, env_result.
  change (@pair (list event) (outcome json) [] (Ok data)) with (ret data).
  rewrite bind_ret_l, result_of_bind.
  destruct (result_of (config_record data)) as [cfg | e'] eqn:Hc.
  - apply load_record_raise.
  - intros H. inversion H; subst. apply (config_record_raise _ _ Hc).
Qed.

(** X18: A configuration that does not load ends the process with the
    exception uncaught, before anything is sent: the guard of the entry
    point catches KeyboardInterrupt only, the loader raises none, so the
    stop message is not logged and the exit is not the clean one. *)
Theorem startup_failure_is_uncaught (data : json) (envs : list tick_env) e :
  result_of (load_config py_repr (Ok data)) = Raise e ->
  run_main py_repr decode_ignore (Ok data) envs
  = (trace_of (load_config py_repr (Ok data)), Some (Uncaught e))
  /\ requests (trace_of (load_config py_repr (Ok data))) = []
  /\ is_KeyboardInterrupt e = false.
Proof.
  intros H. pose proof (load_config_raise data e H) as He.
  assert (Hk : is_KeyboardInterrupt e = false).
  { destruct (is_KeyboardInterrupt e) eqn:E; [| reflexivity].
    apply interrupt_not_Exception in E. congruence. }
  split; [| split; [| exact Hk]].
  { unfold run_main.
    rewrite (main_load_failure py_repr decode_ignore (Ok data) envs e H), Hk.
    reflexivity. }
  destruct (config_record data) as [tc [cfg | e']] eqn:Hc.
  - pose proof (config_record_trace data) as Ht. rewrite Hc in Ht.
    simpl in Ht. subst tc. rewrite (load_config_of_record py_repr _ _ Hc).
    destruct (load_record_trace py_repr cfg) as [Hl | Hl]; rewrite Hl; reflexivity.
  - pose proof (config_record_trace data) as Ht. rewrite Hc in Ht.
    simpl in Ht. subst tc.
    assert (Hx : load_config py_repr (Ok data) = ([], Raise e')).
    { unfold load_config, env_result.
      change (@pair (list event) (outcome json) [] (Ok data)) with (ret data).
      rewrite bind_ret_l, Hc. reflexivity. }
    rewrite Hx. reflexivity.
Qed.

(** X20: Interrupting a sleep stops the bot cleanly: with an interval
    [time.sleep] accepts, so that the sleep does begin, the
    KeyboardInterrupt leaves the loop and [main], the stop message is
    logged last and the process exits with status 0. *)
Theorem interrupted_sleep_exits_cleanly (file : file_read) (env : tick_env)
  (rest : list tick_env) t0 channel_id token messages interval e :
  load_config py_repr file = (t0, Ok (channel_id, token, messages, interval)) ->
  net_ordinary (net env) = true ->
  0 <= interval <= SLEEP_LIMIT ->
  on_sleep env = Some e ->
  is_KeyboardInterrupt e = true ->
  exists t,
    run_main py_repr decode_ignore file (env :: rest)
    = ((t ++ [EvSleep interval; EvLog (mk_log INFO STOPPED [] None)])%list,
       Some (Exited 0)).
Proof.
  intros H Hord Hi Hs Hk. unfold run_main.
  rewrite (main_after_load py_repr decode_ignore file _ _ _ _ _ _ H).
  rewrite run_loop_cons, tick_trace.
  rewrite (attempt_returns decode_ignore env channel_id token messages Hord).
  cbn [result_of trace_of fst snd].
  assert (Hsl : result_of (sleep env interval) = Raise e).
  { unfold sleep. rewrite bind_emit. cbn [result_of snd].
    destruct (sleep_in_range interval Hi) as [Hr1 Hr2].
    rewrite Hr1, Hr2, Hs. reflexivity. }
  rewrite Hsl. cbn [result_of trace_of fst snd]. rewrite Hk.
  exists (t0 ++ EvLog (mk_log INFO STARTED_FMT
                         [ArgStr channel_id; ArgInt interval;
                          ArgInt (Z.of_nat (List.length messages))] None)
             :: trace_of (attempt decode_ignore env channel_id token messages))%list.
  f_equal. repeat (rewrite <- app_assoc; cbn [app]). reflexivity.
Qed.

End EntryProperties.

(** ** One post per iteration *)

Section EveryTick.
Variable decode_ignore : list byte -> string.

(** X21: With string templates no iteration is skipped: as long as the network
    raises nothing but [Exception]s, the interval is one [time.sleep]
    accepts and the sleeps are undisturbed, n iterations make exactly n
    requests and n sleeps of [interval], failed sends included. *)
Theorem every_tick_posts_once (envs : list tick_env) (channel_id token : string)
  (messages : list json) (interval : Z) :
  messages <> [] ->
  Forall (fun v => is_str v = true) messages ->
  Forall (fun env => net_ordinary (net env) = true) envs ->
  0 <= interval <= SLEEP_LIMIT ->
  Forall (fun env => on_sleep env = None) envs ->
  List.length (requests (trace_of (run_loop decode_ignore envs channel_id token
                                     messages interval)))
  = List.length envs
  /\ sleeps (trace_of (run_loop decode_ignore envs channel_id token messages
                         interval))
     = repeat interval (List.length envs).
Proof.
  intros Hne Hall Hord Hi Hs. induction envs as [| env rest IH];
    [split; reflexivity |].
  inversion Hord; subst. inversion Hs; subst.
  destruct (IH H2 H4) as [IHq IHs].
  destruct (random_choice_total (draw env) messages Hne) as (v & Hv & Hin).
  pose proof (proj1 (Forall_forall _ _) Hall v Hin) as Hstr.
  destruct v; try discriminate.
  rewrite run_loop_cons, tick_trace.
  rewrite (attempt_returns decode_ignore env channel_id token messages H1).
  cbn [result_of trace_of fst snd].
  rewrite (sleep_returns env interval Hi H3). cbn [result_of trace_of fst snd].
  rewrite !requests_app, !sleeps_app, sleeps_attempt, IHs.
  rewrite (attempt_str decode_ignore env channel_id token messages s Hv).
  rewrite send_message_requests. cbn [requests sleeps flat_map app List.length].
  rewrite IHq. split; reflexivity.
Qed.

End EveryTick.

(** ** The further statements at sample inputs *)

Lemma attempt_posts_rendered_choice_witness :
  random_choice (draw tick_sent) [JStr "A {now}"] = ([], Ok (JStr "A {now}"))
  /\ requests (trace_of (attempt decode_ascii tick_sent "9" "Bot t"
                           [JStr "A {now}"]))
     = [mk_request get_connection "POST" (messages_path "9")
          (dumps_message "A 2024-01-05 03:04:59") (get_headers "Bot t")].
Proof.
  split; [reflexivity |].
  apply (proj2 (attempt_posts_rendered_choice decode_ascii tick_sent "9" "Bot t"
                  [JStr "A {now}"] "A {now}" eq_refl)).
Defined.

Lemma non_string_templates_post_nothing_witness :
  Forall (fun v => is_str v = false) [JInt 1; JInt 2]
  /\ requests (trace_of (run_loop decode_ascii two_ticks "9" "Bot t"
                           [JInt 1; JInt 2] 60)) = []
  /\ result_of (run_loop decode_ascii two_ticks "9" "Bot t" [JInt 1; JInt 2] 60)
     = Ok tt.
Proof.
  assert (Hall : Forall (fun v => is_str v = false) [JInt 1; JInt 2])
    by (repeat constructor).
  split; [exact Hall |].
  destruct (non_string_templates_post_nothing decode_ascii two_ticks "9" "Bot t"
              [JInt 1; JInt 2] 60) as (Hr & Hq & _);
    [discriminate | exact Hall | unfold SLEEP_LIMIT; lia | repeat constructor |].
  split; assumption.
Defined.

Lemma interrupt_ends_the_loop_witness :
  net_failure (net tick_interrupted_send) = Some ctrl_c
  /\ is_Exception ctrl_c = false
  /\ result_of (run_loop decode_ascii [tick_interrupted_send; tick_sent]
                  "9" "Bot t" [JStr "A"] 60) = Raise ctrl_c
  /\ sleeps (trace_of (run_loop decode_ascii [tick_interrupted_send; tick_sent]
                         "9" "Bot t" [JStr "A"] 60)) = [].
Proof.
  split; [reflexivity |]. split; [reflexivity |].
  destruct (interrupt_ends_the_loop decode_ascii tick_interrupted_send [tick_sent]
              "9" "Bot t" [JStr "A"] 60 "A" ctrl_c eq_refl eq_refl eq_refl)
    as (Hrun & _ & Hs).
  split; [rewrite Hrun; reflexivity | exact Hs].
Defined.

Lemma main_logs_its_start_witness :
  load_config repr_unused (Ok (config_document record_unprefixed))
  = ([EvLog prefix_warning_record],
     Ok ("123", "Bot abc", [JStr "Hello from VPS!"], 3600))
  /\ get_message
       (mk_log INFO STARTED_FMT [ArgStr "123"; ArgInt 3600; ArgInt 1] None)
     = Some "Bot started | channel=123 | interval=3600s | messages=1".
Proof.
  assert (H : load_config repr_unused (Ok (config_document record_unprefixed))
              = ([EvLog prefix_warning_record],
                 Ok ("123", "Bot abc", [JStr "Hello from VPS!"], 3600)))
    by reflexivity.
  split; [exact H |].
  destruct (main_logs_its_start repr_unused decode_ascii _ two_ticks _ _ _ _ _ H)
    as (_ & _ & Hm).
  exact Hm.
Defined.

Lemma negative_interval_ends_main_witness :
  load_config repr_unused (Ok (config_document record_negative_interval))
  = ([], Ok ("1", "Bot t", [JStr "Hello from VPS!"], -5))
  /\ result_of (main repr_unused decode_ascii
                  (Ok (config_document record_negative_interval))
                  [tick_sent; tick_sent])
     = Raise (builtin ValueError)
  /\ result_of (main repr_unused decode_ascii
                  (Ok (config_document record_huge_negative_interval))
                  [tick_sent; tick_sent])
     = Raise (builtin OverflowError).
Proof.
  assert (H : load_config repr_unused
                (Ok (config_document record_negative_interval))
              = ([], Ok ("1", "Bot t", [JStr "Hello from VPS!"], -5)))
    by reflexivity.
  assert (H' : load_config repr_unused
                 (Ok (config_document record_huge_negative_interval))
               = ([], Ok ("1", "Bot t", [JStr "Hello from VPS!"], -10000000000)))
    by reflexivity.
  split; [exact H |]. split.
  - destruct (negative_interval_ends_main repr_unused decode_ascii _ tick_sent
                [tick_sent] _ _ _ _ _ H) as (Hr & _); [lia | reflexivity |].
    exact Hr.
  - destruct (negative_interval_ends_main repr_unused decode_ascii _ tick_sent
                [tick_sent] _ _ _ _ _ H') as (Hr & _); [lia | reflexivity |].
    exact Hr.
Defined.

Lemma missing_config_is_empty_record_witness :
  truthy (get_or_none "Config" [("Config", JList [])]) = false
  /\ load_config repr_unused (Ok (JObj [("Config", JList [])]))
     = ([], Raise CONFIG_ERROR)
  /\ load_config repr_unused (Ok (JObj [])) = ([], Raise CONFIG_ERROR).
Proof.
  split; [reflexivity |]. split.
  - apply (missing_config_is_empty_record repr_unused [("Config", JList [])]).
    reflexivity.
  - apply (missing_config_is_empty_record repr_unused []). reflexivity.
Defined.

Lemma only_first_record_is_read_witness :
  load_config repr_unused
    (Ok (JObj [("Config", JList [JObj record_unprefixed; JInt 7]);
               ("note", JStr "x")]))
  = load_config repr_unused (Ok (config_document record_unprefixed)).
Proof.
  apply (proj2 (only_first_record_is_read repr_unused
                  (("Config", JList [JObj record_unprefixed]) :: [])
                  [("Config", JList [JObj record_unprefixed; JInt 7]);
                   ("note", JStr "x")]
                  (JObj record_unprefixed) [] [JInt 7] eq_refl eq_refl)).
Defined.

Lemma malformed_document_errors_witness :
  load_config repr_unused (Ok (JList []))
  = ([], Raise (builtin AttributeError))
  /\ load_config repr_unused (Ok (JObj [("Config", JInt 3)]))
     = ([], Raise (builtin TypeError))
  /\ load_config repr_unused (Ok (JObj [("Config", JObj record_unprefixed)]))
     = ([], Raise (builtin KeyError)).
Proof.
  destruct (malformed_document_errors repr_unused (JList [])
              [("Config", JInt 3)]) as (Ha & _ & _ & _ & Hn).
  destruct (malformed_document_errors repr_unused JNull
              [("Config", JObj record_unprefixed)]) as (_ & _ & _ & Hk & _).
  split; [apply Ha; reflexivity |]. split.
  - apply (Hn (JInt 3)); [reflexivity | reflexivity |].
    right. left. exists 3. reflexivity.
  - apply (Hk ("token", JStr " abc ") [("channelid", JInt 123)]). reflexivity.
Defined.

Lemma non_string_token_fails_witness :
  truthy (get_or_none "token" record_numeric_token) = true
  /\ is_str (get_or_none "token" record_numeric_token) = false
  /\ load_config repr_unused (Ok (config_document record_numeric_token))
     = ([], Raise (builtin AttributeError)).
Proof.
  split; [reflexivity |]. split; [reflexivity |].
  apply (non_string_token_fails repr_unused
           (config_document record_numeric_token) record_numeric_token);
    reflexivity.
Defined.

Lemma channel_id_coercion_witness :
  load_config repr_unused (Ok (config_document record_true_channel))
  = ([], Ok ("True", "Bot t", [JStr "Hello from VPS!"], 3600))
  /\ exists data members v,
       Ok (config_document record_true_channel) = Ok data
       /\ config_record data = ([], Ok (JObj members))
       /\ dict_get "channelid" members = Some v
       /\ truthy v = true.
Proof.
  assert (H : load_config repr_unused (Ok (config_document record_true_channel))
              = ([], Ok ("True", "Bot t", [JStr "Hello from VPS!"], 3600)))
    by reflexivity.
  split; [exact H |].
  destruct (channel_id_coercion repr_unused _ _ _ _ _ _ H)
    as (data & members & v & Hf & Hc & Hg & Ht & _).
  exists data, members, v. auto.
Defined.

Lemma loaded_fields_are_trimmed_witness :
  load_config repr_unused (Ok (config_document record_spaced_channel))
  = ([EvLog prefix_warning_record],
     Ok ("42", "Bot abc", [JStr "Hello from VPS!"], 3600))
  /\ PyStr.strip "42" = "42" /\ PyStr.strip "Bot abc" = "Bot abc".
Proof.
  assert (H : load_config repr_unused
                (Ok (config_document record_spaced_channel))
              = ([EvLog prefix_warning_record],
                 Ok ("42", "Bot abc", [JStr "Hello from VPS!"], 3600)))
    by reflexivity.
  split; [exact H |].
  apply (loaded_fields_are_trimmed repr_unused _ _ _ _ _ _ H).
Defined.

Lemma reloading_the_credential_witness :
  load_record repr_unused (JObj record_unprefixed)
  = ([EvLog prefix_warning_record],
     Ok ("123", "Bot abc", [JStr "Hello from VPS!"], 3600))
  /\ load_record repr_unused
       (JObj [("token", JStr "Bot abc"); ("channelid", JInt 123)])
     = ([], Ok ("123", "Bot abc", [JStr "Hello from VPS!"], 3600)).
Proof.
  assert (H : load_record repr_unused (JObj record_unprefixed)
              = ([EvLog prefix_warning_record],
                 Ok ("123", "Bot abc", [JStr "Hello from VPS!"], 3600)))
    by reflexivity.
  split; [exact H |].
  apply (reloading_the_credential repr_unused record_unprefixed
           [("token", JStr "Bot abc"); ("channelid", JInt 123)] _ _ _ _ _ H);
    [reflexivity |].
  intros k Hk. cbn [dict_get record_unprefixed]. rewrite Hk. reflexivity.
Defined.

Lemma loader_logs_only_the_warning_witness :
  load_config repr_unused (Ok (config_document record_unprefixed))
  = ([EvLog prefix_warning_record],
     Ok ("123", "Bot abc", [JStr "Hello from VPS!"], 3600))
  /\ exists data members raw,
       Ok (config_document record_unprefixed) = Ok data
       /\ config_record data = ([], Ok (JObj members))
       /\ dict_get "token" members = Some (JStr raw).
Proof.
  assert (H : load_config repr_unused (Ok (config_document record_unprefixed))
              = ([EvLog prefix_warning_record],
                 Ok ("123", "Bot abc", [JStr "Hello from VPS!"], 3600)))
    by reflexivity.
  split; [exact H |].
  destruct (proj2 (loader_logs_only_the_warning repr_unused
                     (Ok (config_document record_unprefixed))) _ _ _ _ _ H)
    as (data & members & raw & Hf & Hc & Hg & _).
  exists data, members, raw. auto.
Defined.

Lemma render_message_idempotent_witness :
  valid_datetime sample_clock
  /\ render_message (mk_datetime 2025 12 31 23 59 59)
       (render_message sample_clock "Time: {now}")
     = "Time: 2024-01-05 03:04:59".
Proof.
  assert (Hv : valid_datetime sample_clock)
    by (unfold valid_datetime; simpl; lia).
  split; [exact Hv |].
  exact (render_message_idempotent sample_clock
           (mk_datetime 2025 12 31 23 59 59) "Time: {now}" Hv).
Defined.

Lemma startup_failure_is_uncaught_witness :
  result_of (load_config repr_unused
               (Ok (config_document record_without_token)))
  = Raise CONFIG_ERROR
  /\ run_main repr_unused decode_ascii
       (Ok (config_document record_without_token)) two_ticks
     = ([], Some (Uncaught CONFIG_ERROR)).
Proof.
  split; [reflexivity |].
  apply (proj1 (startup_failure_is_uncaught repr_unused decode_ascii
                  (config_document record_without_token) two_ticks
                  CONFIG_ERROR eq_refl)).
Defined.

Lemma interrupted_sleep_exits_cleanly_witness :
  on_sleep tick_interrupted_sleep = Some ctrl_c
  /\ is_KeyboardInterrupt ctrl_c = true
  /\ exists t,
       run_main repr_unused decode_ascii
         (Ok (config_document record_unprefixed))
         [tick_interrupted_sleep; tick_sent]
       = ((t ++ [EvSleep 3600; EvLog (mk_log INFO STOPPED [] None)])%list,
          Some (Exited 0)).
Proof.
  split; [reflexivity |]. split; [reflexivity |].
  apply (interrupted_sleep_exits_cleanly repr_unused decode_ascii
           (Ok (config_document record_unprefixed)) tick_interrupted_sleep
           [tick_sent] [EvLog prefix_warning_record] "123" "Bot abc"
           [JStr "Hello from VPS!"] 3600 ctrl_c);
    [reflexivity | reflexivity | unfold SLEEP_LIMIT; lia | reflexivity
     | reflexivity].
Defined.


Lemma every_tick_posts_once_witness :
  Forall (fun env => net_ordinary (net env) = true) two_ticks
  /\ List.length
       (requests (trace_of (run_loop decode_ascii two_ticks "9" "Bot t"
                              [JStr "A"; JStr "B {now}"] 60))) = 2%nat.
Proof.
  assert (Hord : Forall (fun env => net_ordinary (net env) = true) two_ticks)
    by (repeat constructor).
  split; [exact Hord |].
  apply (proj1 (every_tick_posts_once decode_ascii two_ticks "9" "Bot t"
                  [JStr "A"; JStr "B {now}"] 60
                  ltac:(discriminate) ltac:(repeat constructor) Hord
                  ltac:(unfold SLEEP_LIMIT; lia) ltac:(repeat constructor))).
Defined.
